(** * net_drawer: drawing an ONNX graph as a pydot graph

    A shallow embedding of [net_drawer.py] and the properties that its
    specification states about it.

    Conventions of the embedding:
    - a Python [str] is the list of its code points ([N]);
    - a Python [int] is a [Z];
    - a [dict] is a [gmap]; a keyword-argument dictionary, whose order is
      the order of the keywords, is an association list;
    - the local variables that the loops of [GetPydotGraph] update are the
      fields of the record [Locals], threaded through the loop bodies;
    - [pydot] and [json] are libraries the program calls.  [json.dumps]
      is embedded on texts, with its default options.  Of [pydot]: a node
      is made from a name and attributes, and a name that does not start
      with a double quote is cut at its first colon, what follows being
      the port of the node; an edge is the names of its two end nodes; a
      graph is the sequence of the [add_node] and [add_edge] calls made on
      it.  The quotes that pydot puts around a name that needs them, and
      the order in which pydot lists or prints the nodes (it groups them
      by name, and a node added again gets a new sequence number), are
      outside this development. *)

From Stdlib Require Import ZArith NArith List String Ascii Lia DecimalZ.
From stdpp Require Import gmap list.
Import ListNotations.

Local Open Scope N_scope.

(** ** Python text *)

Abbreviation char := N (only parsing).
Abbreviation str := (list N) (only parsing).

(** A literal of the source, given by its ASCII characters. *)
Definition lit (s : string) : str := map N_of_ascii (list_ascii_of_string s).
Arguments lit s%_string.

(** Code points that the source or [json] name. *)
Definition QUOTE : char := 34.      (* the double quote *)
Definition APOSTROPHE : char := 39. (* the single quote *)
Definition BACKSLASH : char := 92.
Definition LT : char := 60.
Definition GT : char := 62.
Definition NEWLINE : char := 10.
Definition UNDERSCORE : char := 95.
Definition COLON : char := 58.

(** [str(i)] and [%d] for an [int]: the decimal digits, after a minus sign
    for a negative number. *)
Fixpoint digits (d : Decimal.uint) : str :=
  match d with
  | Decimal.Nil => []
  | Decimal.D0 r => 48 :: digits r
  | Decimal.D1 r => 49 :: digits r
  | Decimal.D2 r => 50 :: digits r
  | Decimal.D3 r => 51 :: digits r
  | Decimal.D4 r => 52 :: digits r
  | Decimal.D5 r => 53 :: digits r
  | Decimal.D6 r => 54 :: digits r
  | Decimal.D7 r => 55 :: digits r
  | Decimal.D8 r => 56 :: digits r
  | Decimal.D9 r => 57 :: digits r
  end.

Definition str_int (i : Z) : str :=
  match Z.to_int i with
  | Decimal.Pos d => digits d
  | Decimal.Neg d => 45 :: digits d
  end.

(** [s.replace(old, new)] where [old] is one character, the only use the
    source makes of it. *)
Definition replace (old : char) (new : str) (s : str) : str :=
  flat_map (fun c => if c =? old then new else [c]) s.

(** [s.split(sep)] where [sep] is one character: the pieces between the
    separators, empty pieces included; the empty text gives one empty
    piece. *)
Fixpoint split (sep : char) (s : str) : list str :=
  match s with
  | [] => [[]]
  | c :: r =>
      if c =? sep then [] :: split sep r
      else match split sep r with
           | [] => [[c]]
           | p :: ps => (c :: p) :: ps
           end
  end.

(** [enumerate(l)]. *)
Fixpoint enumerate_from {A : Type} (i : Z) (l : list A) : list (Z * A) :=
  match l with
  | [] => []
  | x :: r => (i, x) :: enumerate_from (i + 1)%Z r
  end.

Definition enumerate {A : Type} (l : list A) : list (Z * A) := enumerate_from 0%Z l.

(** ** [json.dumps] on a [str]

    The encoder of Python's [json] with its default [ensure_ascii]: the
    text between two double quotes, where the backslash, the double quote
    and every character outside the printable ASCII range are escaped. *)
Module json.

Definition hex_digit (d : N) : char := if d <? 10 then 48 + d else 87 + d.

(** [format(n, '04x')] for [n < 0x10000]. *)
Definition hex4 (n : N) : str :=
  [hex_digit (n / 4096 mod 16); hex_digit (n / 256 mod 16);
   hex_digit (n / 16 mod 16); hex_digit (n mod 16)].

Definition u_escape (n : N) : str := BACKSLASH :: 117 :: hex4 n.

Definition is_printable (c : char) : bool := (32 <=? c) && (c <=? 126).

Definition escape_char (c : char) : str :=
  if c =? BACKSLASH then [BACKSLASH; BACKSLASH]
  else if c =? QUOTE then [BACKSLASH; QUOTE]
  else if c =? 8 then [BACKSLASH; 98]
  else if c =? 12 then [BACKSLASH; 102]
  else if c =? 10 then [BACKSLASH; 110]
  else if c =? 13 then [BACKSLASH; 114]
  else if c =? 9 then [BACKSLASH; 116]
  else if is_printable c then [c]
  else if c <? 0x10000 then u_escape c
  else
    let n := c - 0x10000 in
    let s1 := N.lor 0xd800 (N.land (N.shiftr n 10) 0x3ff) in
    let s2 := N.lor 0xdc00 (N.land n 0x3ff) in
    u_escape s1 ++ u_escape s2.

Definition dumps (s : str) : str :=
  [QUOTE] ++ flat_map escape_char s ++ [QUOTE].

End json.

(** ** The pydot objects the program builds *)
Module pydot.

Record Node := {
  get_name : str;
  get_port : option str;
  get_attributes : list (str * str)
}.

(** [s.find(c)]: the place of the first [c] in [s]. *)
Fixpoint find (c : char) (s : str) : option nat :=
  match s with
  | [] => None
  | x :: r => if x =? c then Some 0%nat else S <$> find c r
  end.

(** The name and the port that [pydot.Node] takes from the name it is
    given: a name that does not start with a double quote and has a colon
    that is neither its first nor its last character is cut before this
    colon; the rest, from the colon on, is the port. *)
Definition split_port (name : str) : str * option str :=
  match name with
  | [] => (name, None)
  | c :: _ =>
      if c =? QUOTE then (name, None)
      else
        match find COLON name with
        | Some idx =>
            if (0 <? idx)%nat && (idx + 1 <? length name)%nat
            then (firstn idx name, Some (skipn idx name))
            else (name, None)
        | None => (name, None)
        end
  end.

(** [pydot.Node(name, **attrs)]. *)
Definition mkNode (name : str) (attrs : list (str * str)) : Node :=
  {| get_name := fst (split_port name);
     get_port := snd (split_port name);
     get_attributes := attrs |}.

(** [node.get(key)]. *)
Fixpoint lookup_attr (key : str) (attrs : list (str * str)) : option str :=
  match attrs with
  | [] => None
  | (k, v) :: r => if decide (k = key) then Some v else lookup_attr key r
  end.

Definition get (key : str) (n : Node) : option str :=
  lookup_attr key (get_attributes n).

(** [attrs[key] = value] on the attribute dictionary. *)
Fixpoint set_attr (key value : str) (attrs : list (str * str)) : list (str * str) :=
  match attrs with
  | [] => [(key, value)]
  | (k, v) :: r =>
      if decide (k = key) then (k, value) :: r else (k, v) :: set_attr key value r
  end.

(** [node.set_URL(url)]. *)
Definition set_URL (url : str) (n : Node) : Node :=
  {| get_name := get_name n;
     get_port := get_port n;
     get_attributes := set_attr (lit "URL") url (get_attributes n) |}.

(** An edge keeps the names of its two end nodes. *)
Record Edge := { get_source : str; get_destination : str }.

(** [pydot.Edge(src, dst)] on two nodes. *)
Definition mkEdge (src dst : Node) : Edge :=
  {| get_source := get_name src; get_destination := get_name dst |}.

Inductive Element :=
| ANode (n : Node)
| AnEdge (e : Edge).

(** The graph: its name, its [rankdir] attribute and what was added to it,
    in the order of the [add_node] and [add_edge] calls. *)
Record Dot := {
  graph_name : option str;
  rankdir : str;
  elements : list Element
}.

(** [pydot.Dot(name, rankdir=rankdir)]. *)
Definition mkDot (name : option str) (rankdir : str) : Dot :=
  {| graph_name := name; rankdir := rankdir; elements := [] |}.

Definition add_node (g : Dot) (n : Node) : Dot :=
  {| graph_name := graph_name g; rankdir := rankdir g;
     elements := elements g ++ [ANode n] |}.

Definition add_edge (g : Dot) (e : Edge) : Dot :=
  {| graph_name := graph_name g; rankdir := rankdir g;
     elements := elements g ++ [AnEdge e] |}.

(** The nodes and the edges given to a graph, in the order of the
    [add_node] and of the [add_edge] calls, a node once for each time it
    is added.  (pydot's own [get_nodes()] lists the same nodes grouped by
    name.) *)
Definition nodes_of (l : list Element) : list Node :=
  flat_map (fun x => match x with ANode n => [n] | AnEdge _ => [] end) l.

Definition edges_of (l : list Element) : list Edge :=
  flat_map (fun x => match x with ANode _ => [] | AnEdge e => [e] end) l.

Definition get_nodes (g : Dot) : list Node := nodes_of (elements g).
Definition get_edges (g : Dot) : list Edge := edges_of (elements g).

End pydot.

#[global] Instance Node_eq_dec : EqDecision pydot.Node.
Proof. solve_decision. Defined.

#[global] Instance Edge_eq_dec : EqDecision pydot.Edge.
Proof. solve_decision. Defined.

(** ** The ONNX objects the program reads *)
Module onnx.

Record NodeProto := {
  name : str;
  op_type : str;
  input : list str;
  output : list str;
  doc_string : str
}.

Record GraphProto := {
  node : list NodeProto;
  graph_name : str
}.

End onnx.

(** ** net_drawer.py *)

Definition OP_STYLE : list (str * str) :=
  [(lit "shape", lit "box"); (lit "color", lit "#0F9D58");
   (lit "style", lit "filled"); (lit "fontcolor", lit "#FFFFFF")].

Definition OP_STYLE_1 : list (str * str) :=
  [(lit "shape", lit "box"); (lit "color", lit "#930e9d");
   (lit "style", lit "filled"); (lit "fontcolor", lit "#FFFFFF")].

Definition BLOB_STYLE : list (str * str) := [(lit "shape", lit "octagon")].

Definition _escape_label (name : str) : str := json.dumps name.

Definition _form_and_sanitize_docstring (s : str) : str :=
  let url := lit "javascript:alert(" in
  let url :=
    url ++ replace GT [] (replace LT [] (replace QUOTE [APOSTROPHE] (_escape_label s))) in
  let url := url ++ lit ")" in
  url.

(** A node producer: the visual node of an operator, from the operator,
    its index and the style given as keyword arguments. *)
Abbreviation NodeProducer := (onnx.NodeProto -> Z -> list (str * str) -> pydot.Node) (only parsing).

Definition ReallyGetOpNode (embed_docstring : bool)
    (op : onnx.NodeProto) (op_id : Z) (kwargs : list (str * str)) : pydot.Node :=
  let node_name :=
    match onnx.name op with
    | _ :: _ =>
        onnx.name op ++ lit "/" ++ onnx.op_type op ++ lit " (op#" ++ str_int op_id ++ lit ")"
    | [] => onnx.op_type op ++ lit " (op#" ++ str_int op_id ++ lit ")"
    end in
  let node_name :=
    fold_left (fun node_name '(i, input) =>
                 node_name ++ (NEWLINE :: lit " input") ++ str_int i ++ lit " " ++ input)
              (enumerate (onnx.input op)) node_name in
  let node_name :=
    fold_left (fun node_name '(i, output) =>
                 node_name ++ (NEWLINE :: lit " output") ++ str_int i ++ lit " " ++ output)
              (enumerate (onnx.output op)) node_name in
  let node := pydot.mkNode node_name kwargs in
  if embed_docstring
  then pydot.set_URL (_form_and_sanitize_docstring (onnx.doc_string op)) node
  else node.

Definition GetOpNodeProducer (embed_docstring : bool) : NodeProducer :=
  ReallyGetOpNode embed_docstring.

(** The local variables of [GetPydotGraph] that its loops update. *)
Record Locals := {
  pydot_graph : pydot.Dot;
  pydot_nodes : gmap str pydot.Node;
  pydot_node_counts : gmap str Z
}.

(** [d[key]] on a [defaultdict(int)]: a missing key reads as [0] and is
    entered in the dictionary by the reading. *)
Definition defaultdict_get (d : gmap str Z) (key : str) : Z * gmap str Z :=
  match d !! key with
  | Some v => (v, d)
  | None => (0%Z, <[key := 0%Z]> d)
  end.

(** [d[key] += 1] on a [defaultdict(int)]. *)
Definition defaultdict_incr (d : gmap str Z) (key : str) : gmap str Z :=
  let (v, d) := defaultdict_get d key in
  <[key := (v + 1)%Z]> d.

(** The value node made for [name] at the occurrence [count]. *)
Definition blob_node (name : str) (count : Z) : pydot.Node :=
  pydot.mkNode (_escape_label (name ++ str_int count))
               ((lit "label", _escape_label name) :: BLOB_STYLE).

(** The body of the loop over [op.input]. *)
Definition input_body (op_node : pydot.Node) (st : Locals) (input_name : str) : Locals :=
  match pydot_nodes st !! input_name with
  | None =>
      let (count, counts) := defaultdict_get (pydot_node_counts st) input_name in
      let input_node := blob_node input_name count in
      let g := pydot.add_node (pydot_graph st) input_node in
      let g := pydot.add_edge g (pydot.mkEdge input_node op_node) in
      {| pydot_graph := g;
         pydot_nodes := <[input_name := input_node]> (pydot_nodes st);
         pydot_node_counts := counts |}
  | Some input_node =>
      let g := pydot.add_node (pydot_graph st) input_node in
      let g := pydot.add_edge g (pydot.mkEdge input_node op_node) in
      {| pydot_graph := g;
         pydot_nodes := pydot_nodes st;
         pydot_node_counts := pydot_node_counts st |}
  end.

(** The body of the loop over [op.output]. *)
Definition output_body (op_node : pydot.Node) (st : Locals) (output_name : str) : Locals :=
  let counts :=
    match pydot_nodes st !! output_name with
    | Some _ => defaultdict_incr (pydot_node_counts st) output_name
    | None => pydot_node_counts st
    end in
  let (count, counts) := defaultdict_get counts output_name in
  let output_node := blob_node output_name count in
  let g := pydot.add_node (pydot_graph st) output_node in
  let g := pydot.add_edge g (pydot.mkEdge op_node output_node) in
  {| pydot_graph := g;
     pydot_nodes := <[output_name := output_node]> (pydot_nodes st);
     pydot_node_counts := counts |}.

(** [op_id in marked_list]. *)
Definition in_list (op_id : Z) (marked_list : list Z) : bool :=
  existsb (Z.eqb op_id) marked_list.

(** The operator node the loop makes for [op] at [op_id]. *)
Definition make_op_node (node_producer : NodeProducer) (marked_list : list Z)
    (op_id : Z) (op : onnx.NodeProto) : pydot.Node :=
  if in_list op_id marked_list
  then node_producer op op_id OP_STYLE_1
  else node_producer op op_id OP_STYLE.

(** The body of the loop over [enumerate(graph.node)]. *)
Definition op_body (node_producer : NodeProducer) (marked_list : list Z)
    (st : Locals) (x : Z * onnx.NodeProto) : Locals :=
  let '(op_id, op) := x in
  let op_node := make_op_node node_producer marked_list op_id op in
  let st := {| pydot_graph := pydot.add_node (pydot_graph st) op_node;
               pydot_nodes := pydot_nodes st;
               pydot_node_counts := pydot_node_counts st |} in
  let st := fold_left (input_body op_node) (onnx.input op) st in
  let st := fold_left (output_body op_node) (onnx.output op) st in
  st.

(** The local variables before the loop. *)
Definition initial_locals (name : option str) (rankdir : str) : Locals :=
  {| pydot_graph := pydot.mkDot name rankdir;
     pydot_nodes := ∅;
     pydot_node_counts := ∅ |}.

(** The local variables after the loop over the operators [ops], numbered
    from [0]. *)
Definition run_ops (node_producer : NodeProducer) (marked_list : list Z)
    (name : option str) (rankdir : str) (ops : list onnx.NodeProto) : Locals :=
  fold_left (op_body node_producer marked_list) (enumerate ops)
            (initial_locals name rankdir).

Definition GetPydotGraph (graph : onnx.GraphProto) (name : option str) (rankdir : str)
    (node_producer : option NodeProducer) (embed_docstring : bool)
    (marked_list : list Z) : pydot.Dot :=
  let node_producer :=
    match node_producer with
    | None => GetOpNodeProducer embed_docstring
    | Some p => p
    end in
  pydot_graph (run_ops node_producer marked_list name rankdir (onnx.node graph)).

(** ** The entry point

    [main] after [parser.parse_args()]: the parsed arguments are a record.
    What [main] does to the outside (the file it reads, the graph it
    builds, the file it writes) is kept as a trace of events; an exception
    ends the run. *)

Record Namespace := {
  args_input : str;
  args_output : str;
  args_rankdir : str;
  args_embed_docstring : bool;
  args_marked : Z;
  args_marked_list : str
}.

Inductive Exception :=
| ValueError      (* [int(e)] on a text that is no integer *)
| OSError         (* the input cannot be read, the output cannot be written *)
| DecodeError.    (* the content is no serialized model *)

Inductive Event :=
| ReadFile (path : str)
| ParseModel (content : list Byte.byte)
| BuildGraph (g : pydot.Dot)
| WriteDot (path : str) (g : pydot.Dot).

(** What [main] calls outside this file: the builtin [int], the reading of
    a file, [ModelProto.ParseFromString] followed by [model.graph], and
    [write_dot]. *)
Record Externals := {
  int : str -> option Z;
  read_file : str -> option (list Byte.byte);
  ParseFromString : list Byte.byte -> option onnx.GraphProto;
  write_dot : str -> pydot.Dot -> bool
}.

(** Runs that may raise and that log events. *)
Definition Run (A : Type) : Type := list Event -> (Exception + A) * list Event.

Definition ret {A : Type} (x : A) : Run A := fun tr => (inr x, tr).

Definition raise {A : Type} (e : Exception) : Run A := fun tr => (inl e, tr).

Definition bind {A B : Type} (m : Run A) (k : A -> Run B) : Run B :=
  fun tr =>
    match m tr with
    | (inl e, tr') => (inl e, tr')
    | (inr x, tr') => k x tr'
    end.

Definition emit (ev : Event) : Run unit := fun tr => (inr tt, tr ++ [ev]).

Definition lift {A : Type} (e : Exception) (o : option A) : Run A :=
  match o with
  | Some x => ret x
  | None => raise e
  end.

#[global] Instance Run_ret : MRet Run := @ret.
#[global] Instance Run_bind : MBind Run := fun A B k m => bind m k.

(** [[f(e) for e in l]]: the elements from left to right, up to the first
    that raises. *)
Fixpoint comprehension {A B : Type} (f : A -> Run B) (l : list A) : Run (list B) :=
  match l with
  | [] => ret []
  | e :: r =>
      y ← f e;
      ys ← comprehension f r;
      mret (y :: ys)
  end.

Definition main (ext : Externals) (args : Namespace) : Run unit :=
  marked_list ←
    (if (args_marked args =? 0)%Z
     then mret []
     else comprehension (fun e => lift ValueError (int ext e))
                        (split UNDERSCORE (args_marked_list args)));
  emit (ReadFile (args_input args));;
  content ← lift OSError (read_file ext (args_input args));
  emit (ParseModel content);;
  graph ← lift DecodeError (ParseFromString ext content);
  let pydot_graph :=
    GetPydotGraph graph (Some (onnx.graph_name graph)) (args_rankdir args)
      (Some (GetOpNodeProducer (args_embed_docstring args))) false marked_list in
  emit (BuildGraph pydot_graph);;
  emit (WriteDot (args_output args) pydot_graph);;
  if write_dot ext (args_output args) pydot_graph then mret tt else raise OSError.

(** [int(e)] on a text of ASCII characters without underscore, as the
    tokens of a highlight list are: blanks around (the space and the
    characters 9 to 13), one optional sign, then decimal digits.  This
    function stands for [int] only where [main] is run on concrete ASCII
    arguments; on a text with other characters Python's [int] also reads
    the decimal digits and the blanks of other scripts. *)
Definition is_blank (c : char) : bool :=
  (c =? 32) || ((9 <=? c) && (c <=? 13)).

Fixpoint lstrip (s : str) : str :=
  match s with
  | c :: r => if is_blank c then lstrip r else s
  | [] => []
  end.

Definition strip (s : str) : str := rev (lstrip (rev (lstrip s))).

Fixpoint digits_value (acc : Z) (s : str) : option Z :=
  match s with
  | [] => Some acc
  | c :: r =>
      if (48 <=? c) && (c <=? 57)
      then digits_value (10 * acc + Z.of_N (c - 48))%Z r
      else None
  end.

Definition unsigned_value (s : str) : option Z :=
  match s with
  | [] => None
  | _ :: _ => digits_value 0%Z s
  end.

Definition int_ascii (s : str) : option Z :=
  match strip s with
  | 45 :: r => Z.opp <$> unsigned_value r
  | 43 :: r => unsigned_value r
  | r => unsigned_value r
  end.

(** ** Notions the properties are stated with *)

(** The label of an operator node as the specification words it: a head
    made of the name (when there is one), the type and the index, then one
    line for each input and one for each output, each with its position. *)
Definition op_label_head (name op_type : str) (op_id : Z) : str :=
  match name with
  | [] => op_type ++ lit " (op#" ++ str_int op_id ++ lit ")"
  | _ :: _ => name ++ lit "/" ++ op_type ++ lit " (op#" ++ str_int op_id ++ lit ")"
  end.

Definition op_label_line (kind : str) (x : Z * str) : str :=
  [NEWLINE] ++ lit " " ++ kind ++ str_int (fst x) ++ lit " " ++ snd x.

Definition op_label (name op_type : str) (op_id : Z) (inputs outputs : list str) : str :=
  op_label_head name op_type op_id
  ++ concat (map (op_label_line (lit "input")) (enumerate inputs))
  ++ concat (map (op_label_line (lit "output")) (enumerate outputs)).

(** Operator nodes are drawn as boxes, value nodes as octagons. *)
Definition is_op_node (n : pydot.Node) : bool :=
  bool_decide (pydot.get (lit "shape") n = Some (lit "box")).

Definition op_nodes (g : pydot.Dot) : list pydot.Node :=
  List.filter is_op_node (pydot.get_nodes g).

Definition value_nodes (g : pydot.Dot) : list pydot.Node :=
  List.filter (fun n => negb (is_op_node n)) (pydot.get_nodes g).

(** A node has a style when it has each attribute of the style. *)
Definition has_style (style : list (str * str)) (n : pydot.Node) : bool :=
  forallb (fun kv => bool_decide (pydot.get (fst kv) n = Some (snd kv))) style.

(** The occurrence counter of a name. *)
Definition count_of (st : Locals) (k : str) : Z :=
  default 0%Z (pydot_node_counts st !! k).

(** The occurrence of the value node that a write of [k] makes: one more
    than the counter when a value node exists under the name. *)
Definition next_count (st : Locals) (k : str) : Z :=
  match pydot_nodes st !! k with
  | Some _ => (count_of st k + 1)%Z
  | None => count_of st k
  end.

(** The value node kept for a name is the one of its current occurrence. *)
Definition nodes_current (st : Locals) : Prop :=
  forall k n, pydot_nodes st !! k = Some n -> n = blob_node k (count_of st k).

(** From [st] to [st']: the graph gets more elements at its end, the names
    that have a value node keep one, no counter goes down. *)
Definition grows (st st' : Locals) : Prop :=
  (exists more,
      pydot.elements (pydot_graph st') = pydot.elements (pydot_graph st) ++ more) /\
  (forall o, is_Some (pydot_nodes st !! o) -> is_Some (pydot_nodes st' !! o)) /\
  (forall o, (count_of st o <= count_of st' o)%Z).

(** Every edge of the sequence comes after a node with the name of its
    source and after a node with the name of its destination. *)
Definition edges_follow_nodes (l : list pydot.Element) : Prop :=
  forall pre e post,
    l = pre ++ pydot.AnEdge e :: post ->
    (exists n, In (pydot.ANode n) pre /\ pydot.get_name n = pydot.get_source e) /\
    (exists n, In (pydot.ANode n) pre /\ pydot.get_name n = pydot.get_destination e).

(** The local variables after the operators [ops], numbered from [i], run
    from [st]. *)
Definition run_from (node_producer : NodeProducer) (marked_list : list Z)
    (st : Locals) (i : Z) (ops : list onnx.NodeProto) : Locals :=
  fold_left (op_body node_producer marked_list) (enumerate_from i ops) st.

(** *** Reading a quoted text back

    The reader of a JSON text in quotes, as [json.loads] reads it: after
    the opening quote, characters up to the closing quote, which ends the
    text; a backslash starts an escape; two [\u] escapes of a surrogate
    pair give one character. *)
Module reader.

Definition unhex (c : char) : option N :=
  if (48 <=? c) && (c <=? 57) then Some (c - 48)
  else if (97 <=? c) && (c <=? 102) then Some (c - 87)
  else if (65 <=? c) && (c <=? 70) then Some (c - 55)
  else None.

Definition unhex4 (a b c d : char) : option N :=
  match unhex a, unhex b, unhex c, unhex d with
  | Some x, Some y, Some z, Some w => Some (((x * 16 + y) * 16 + z) * 16 + w)
  | _, _, _, _ => None
  end.

Definition simple_escape (e : char) : option char :=
  if e =? QUOTE then Some QUOTE
  else if e =? BACKSLASH then Some BACKSLASH
  else if e =? 47 then Some 47
  else if e =? 98 then Some 8
  else if e =? 102 then Some 12
  else if e =? 110 then Some 10
  else if e =? 114 then Some 13
  else if e =? 116 then Some 9
  else None.

Definition is_high (u : N) : bool := (0xd800 <=? u) && (u <=? 0xdbff).
Definition is_low (u : N) : bool := (0xdc00 <=? u) && (u <=? 0xdfff).

Definition pair_value (u v : N) : char :=
  0x10000 + (u - 0xd800) * 1024 + (v - 0xdc00).

(** What follows a [\u] escape of value [u]: [Some (x, true)] when a low
    surrogate follows a high one and the pair gives [x] (the reader then
    skips the six characters of the second escape), [Some (u, false)]
    otherwise. *)
Definition after_u (u : N) (rest : str) : option (char * bool) :=
  if is_high u then
    match rest with
    | b :: k :: a2 :: b2 :: c2 :: d2 :: _ =>
        if (b =? BACKSLASH) && (k =? 117) then
          match unhex4 a2 b2 c2 d2 with
          | Some v => if is_low v then Some (pair_value u v, true) else Some (u, false)
          | None => None
          end
        else Some (u, false)
    | _ => Some (u, false)
    end
  else Some (u, false).

Fixpoint body (s : str) : option str :=
  match s with
  | [] => None
  | c :: r =>
      if c =? QUOTE then match r with [] => Some [] | _ :: _ => None end
      else if c =? BACKSLASH then
        match r with
        | [] => None
        | e :: r1 =>
            if e =? 117 then
              match r1 with
              | a :: b :: c' :: d :: r2 =>
                  match unhex4 a b c' d with
                  | None => None
                  | Some u =>
                      match after_u u r2 with
                      | None => None
                      | Some (x, false) => cons x <$> body r2
                      | Some (x, true) =>
                          match r2 with
                          | _ :: _ :: _ :: _ :: _ :: _ :: r3 => cons x <$> body r3
                          | _ => None
                          end
                      end
                  end
              | _ => None
              end
            else
              match simple_escape e with
              | Some x => cons x <$> body r1
              | None => None
              end
        end
      else if c <? 32 then None
      else cons c <$> body r
  end.

Definition loads (s : str) : option str :=
  match s with
  | c :: r => if c =? QUOTE then body r else None
  | [] => None
  end.

(** The place of the first quote of [s] that no backslash escapes, a
    backslash escaping the character after it. *)
Fixpoint closing_quote (s : str) : option nat :=
  match s with
  | [] => None
  | c :: r =>
      if c =? QUOTE then Some 0%nat
      else if c =? BACKSLASH then
        match r with
        | [] => None
        | _ :: r' => (fun n => S (S n)) <$> closing_quote r'
        end
      else S <$> closing_quote r
  end.

End reader.

(** The shapes of an escaped character: a backslash and a letter, the
    character itself, one [\u] escape, or two. *)
Inductive escape_shape (c : N) : str -> Prop :=
| shape_pair (e : N) :
    reader.simple_escape e = Some c -> e <> 117 -> json.is_printable e = true ->
    escape_shape c [BACKSLASH; e]
| shape_plain :
    c <> QUOTE -> c <> BACKSLASH -> json.is_printable c = true ->
    escape_shape c [c]
| shape_u :
    c < 65536 -> json.is_printable c = false ->
    escape_shape c (json.u_escape c)
| shape_uu :
    65536 <= c ->
    escape_shape c (json.u_escape (0xd800 + ((c - 65536) / 1024) mod 1024)
                    ++ json.u_escape (0xdc00 + (c - 65536) mod 1024)).

(** A Unicode scalar value: the code points of a text that a protobuf
    string field holds (no surrogate, at most [0x10FFFF]). *)
Definition is_scalar (c : char) : bool :=
  (c <? 0xd800) || ((0xdfff <? c) && (c <=? 0x10ffff)).

(** The quote characters. *)
Definition is_quote (c : char) : bool := (c =? QUOTE) || (c =? APOSTROPHE).

(** The text without its quote and angle-bracket characters. *)
Definition stripped (s : str) : str :=
  List.filter (fun c => negb ((c =? QUOTE) || (c =? LT) || (c =? GT))) s.

(** ** Inputs the properties are run on *)

(** One operator [Add] without a name, from [x] and [y] to [z]. *)
Definition add_op (doc : str) : onnx.NodeProto :=
  {| onnx.name := []; onnx.op_type := lit "Add";
     onnx.input := [lit "x"; lit "y"]; onnx.output := [lit "z"];
     onnx.doc_string := doc |}.

(** An operator that reads [z] and writes [z] again. *)
Definition relu_op : onnx.NodeProto :=
  {| onnx.name := lit "act"; onnx.op_type := lit "Relu";
     onnx.input := [lit "z"]; onnx.output := [lit "z"];
     onnx.doc_string := lit "max(0, <z>)" |}.

(** An operator that writes [z] from nothing, and one that reads [z1]. *)
Definition const_op : onnx.NodeProto :=
  {| onnx.name := []; onnx.op_type := lit "Constant";
     onnx.input := []; onnx.output := [lit "z"];
     onnx.doc_string := [] |}.

Definition neg_op : onnx.NodeProto :=
  {| onnx.name := []; onnx.op_type := lit "Neg";
     onnx.input := [lit "z1"]; onnx.output := [lit "w"];
     onnx.doc_string := [] |}.



(** Eleven writes of [z], then a read of [z1]. *)
Definition colliding_graph : onnx.GraphProto :=
  {| onnx.node := repeat const_op 11 ++ [neg_op]; onnx.graph_name := lit "g" |}.

Definition three_ops_graph : onnx.GraphProto :=
  {| onnx.node := [add_op []; relu_op; neg_op]; onnx.graph_name := lit "g" |}.

(** An outside where every file reads as empty and holds the graph of
    three operators, and every file can be written. *)
Definition sample_ext : Externals :=
  {| int := int_ascii;
     read_file := fun _ => Some [];
     ParseFromString := fun _ => Some three_ops_graph;
     write_dot := fun _ _ => true |}.

Definition sample_args (marked_list : str) : Namespace :=
  {| args_input := lit "model.pb"; args_output := lit "model.dot";
     args_rankdir := lit "LR"; args_embed_docstring := false;
     args_marked := 1; args_marked_list := marked_list |}.

(** A name with a quote, a backslash, a line end and characters outside
    ASCII. *)
Definition awkward_name : str :=
  lit "say " ++ [QUOTE] ++ lit "hi" ++ [QUOTE; BACKSLASH; NEWLINE; 0xe9; 0x1f600].

(** ** Notions for the properties of the whole file *)

(** The numbers of input and of output names of a list of operators. *)
Definition total_inputs (ops : list onnx.NodeProto) : nat :=
  list_sum (map (fun op => length (onnx.input op)) ops).

Definition total_outputs (ops : list onnx.NodeProto) : nat :=
  list_sum (map (fun op => length (onnx.output op)) ops).

(** How many times the operators write the name [o]. *)
Definition occurrences (o : str) (l : list str) : nat :=
  length (List.filter (fun x => bool_decide (x = o)) l).

Definition writes (o : str) (ops : list onnx.NodeProto) : nat :=
  list_sum (map (fun op => occurrences o (onnx.output op)) ops).

(** [sep.join(l)] where [sep] is one character. *)
Fixpoint join (sep : char) (l : list str) : str :=
  match l with
  | [] => []
  | [x] => x
  | x :: r => x ++ sep :: join sep r
  end.

(** A character that [json.dumps] leaves as it is. *)
Definition is_plain (c : char) : bool :=
  json.is_printable c && negb (c =? QUOTE) && negb (c =? BACKSLASH).

(** Two runs agree on everything but the attributes of the operator nodes:
    the same value nodes under the same names, the same counters, the same
    edges, and nodes of the same names in the same order. *)
Definition same_drawing (st1 st2 : Locals) : Prop :=
  pydot_nodes st1 = pydot_nodes st2 /\
  pydot_node_counts st1 = pydot_node_counts st2 /\
  pydot.get_edges (pydot_graph st1) = pydot.get_edges (pydot_graph st2) /\
  map pydot.get_name (pydot.get_nodes (pydot_graph st1))
  = map pydot.get_name (pydot.get_nodes (pydot_graph st2)) /\
  value_nodes (pydot_graph st1) = value_nodes (pydot_graph st2).

(** The node is the operator node of one of the operators, or the value
    node of a name that one of the operators reads or writes. *)
Definition node_of_model (np : NodeProducer) (ml : list Z)
    (ops : list onnx.NodeProto) (n : pydot.Node) : Prop :=
  (exists (i : nat) (op : onnx.NodeProto),
      ops !! i = Some op /\ n = make_op_node np ml (Z.of_nat i) op) \/
  (exists (op : onnx.NodeProto) (o : str) (c : Z),
      In op ops /\ (In o (onnx.input op) \/ In o (onnx.output op)) /\
      (0 <= c)%Z /\ n = blob_node o c).

(** The edge goes from the value node of an input of an operator to the node
    of the operator, or from the node of an operator to the value node of
    one of its outputs. *)
Definition edge_of_model (np : NodeProducer) (ml : list Z)
    (ops : list onnx.NodeProto) (e : pydot.Edge) : Prop :=
  exists (i : nat) (op : onnx.NodeProto) (o : str) (c : Z),
    ops !! i = Some op /\ (0 <= c)%Z /\
    ((In o (onnx.input op) /\
      e = pydot.mkEdge (blob_node o c) (make_op_node np ml (Z.of_nat i) op)) \/
     (In o (onnx.output op) /\
      e = pydot.mkEdge (make_op_node np ml (Z.of_nat i) op) (blob_node o c))).

(** The local variables hold only what the model gives: every node and
    every edge added so far is one of the model, the value nodes kept are
    the current ones, and no counter is negative. *)
Definition drawn_from_model (np : NodeProducer) (ml : list Z)
    (ops : list onnx.NodeProto) (st : Locals) : Prop :=
  nodes_current st /\
  (forall k, (0 <= count_of st k)%Z) /\
  (forall n, In (pydot.ANode n) (pydot.elements (pydot_graph st)) ->
             node_of_model np ml ops n) /\
  (forall e, In (pydot.AnEdge e) (pydot.elements (pydot_graph st)) ->
             edge_of_model np ml ops e).

(** The operators are in single-assignment form after the names [seen]: no
    operator writes a name twice, a name that it reads, or a name that an
    operator before it has read or written. *)
Fixpoint single_assignment (seen : list str) (ops : list onnx.NodeProto) : Prop :=
  match ops with
  | [] => True
  | op :: rest =>
      NoDup (onnx.output op) /\
      (forall o, In o (onnx.output op) -> ~ In o seen /\ ~ In o (onnx.input op)) /\
      single_assignment (onnx.output op ++ onnx.input op ++ seen) rest
  end.

(** The node is the node of an operator or the value node of the first
    occurrence of a name. *)
Definition first_generation (np : NodeProducer) (ml : list Z) (n : pydot.Node) : Prop :=
  (exists i op, n = make_op_node np ml i op) \/ (exists o, n = blob_node o 0).

(** Every counter is [0], the names that have a value node are among
    [seen], and the nodes added so far are of the first generation. *)
Definition all_first (np : NodeProducer) (ml : list Z)
    (seen : list str) (st : Locals) : Prop :=
  nodes_current st /\
  (forall k, count_of st k = 0%Z) /\
  (forall k, is_Some (pydot_nodes st !! k) -> In k seen) /\
  (forall n, In (pydot.ANode n) (pydot.elements (pydot_graph st)) ->
             first_generation np ml n).

(** [Namespace] with another [--marked_list]. *)
Definition with_marked_list (args : Namespace) (marked_list : str) : Namespace :=
  {| args_input := args_input args; args_output := args_output args;
     args_rankdir := args_rankdir args;
     args_embed_docstring := args_embed_docstring args;
     args_marked := args_marked args; args_marked_list := marked_list |}.

(** * Properties *)

(** Linear arithmetic with quotients and remainders by constants. *)
Ltac nlia := zify; Z.to_euclidean_division_equations; lia.

(** ** Decimal numerals *)

Lemma digits_inj (d1 d2 : Decimal.uint) : digits d1 = digits d2 -> d1 = d2.
Proof.
  revert d2; induction d1; intros [] H; simpl in H;
    try discriminate; try reflexivity;
    injection H as H; f_equal; auto.
Qed.

Lemma digits_are_digits (d : Decimal.uint) :
  Forall (fun c => 48 <= c <= 57) (digits d).
Proof. induction d; simpl; constructor; auto; lia. Qed.

Lemma str_int_inj (a b : Z) : str_int a = str_int b -> a = b.
Proof.
  unfold str_int. intros H.
  rewrite <- (DecimalZ.of_to a), <- (DecimalZ.of_to b).
  destruct (Z.to_int a) as [da|da], (Z.to_int b) as [db|db].
  - f_equal. f_equal. now apply digits_inj.
  - pose proof (digits_are_digits da) as F. rewrite H in F.
    inversion F; subst; lia.
  - pose proof (digits_are_digits db) as F. rewrite <- H in F.
    inversion F; subst; lia.
  - injection H as H. f_equal. f_equal. now apply digits_inj.
Qed.

(** A decimal numeral goes through [json.dumps] unchanged. *)
Lemma escape_char_plain (c : N) :
  c <> BACKSLASH -> c <> QUOTE -> 32 <= c <= 126 -> json.escape_char c = [c].
Proof.
  unfold BACKSLASH, QUOTE. intros H1 H2 H3. unfold json.escape_char, json.is_printable.
  unfold BACKSLASH, QUOTE.
  repeat match goal with
         | |- context [?x =? ?y] => destruct (N.eqb_spec x y); [lia|]
         end.
  destruct (N.leb_spec 32 c); [|lia]. destruct (N.leb_spec c 126); [|lia].
  reflexivity.
Qed.

Lemma str_int_plain (i : Z) : flat_map json.escape_char (str_int i) = str_int i.
Proof.
  assert (P : forall d, flat_map json.escape_char (digits d) = digits d).
  { intros d. pose proof (digits_are_digits d) as F.
    induction F as [|c r Hc _ IH]; [reflexivity|].
    simpl. rewrite IH, escape_char_plain; unfold BACKSLASH, QUOTE; try lia.
    reflexivity. }
  unfold str_int. destruct (Z.to_int i); simpl; now rewrite P.
Qed.

(** Two occurrences of one name have different identities. *)
Lemma identity_inj (o : str) (a b : Z) :
  _escape_label (o ++ str_int a) = _escape_label (o ++ str_int b) -> a = b.
Proof.
  unfold _escape_label, json.dumps. intros H.
  injection H as H. apply app_inv_tail in H.
  rewrite !flat_map_app in H. apply app_inv_head in H.
  rewrite !str_int_plain in H. now apply str_int_inj.
Qed.

(** ** [json.dumps] *)

Section Json.

Import json reader.

Lemma hex_digit_cases (d : N) :
  d < 16 ->
  (48 <= hex_digit d <= 57 /\ hex_digit d = 48 + d) \/
  (97 <= hex_digit d <= 102 /\ hex_digit d = 87 + d).
Proof. unfold hex_digit. intros H. destruct (N.ltb_spec d 10); lia. Qed.

Lemma unhex_hex_digit (d : N) : d < 16 -> unhex (hex_digit d) = Some d.
Proof.
  intros H. unfold unhex.
  destruct (hex_digit_cases d H) as [[R E]|[R E]].
  - destruct (N.leb_spec 48 (hex_digit d)); [|lia].
    destruct (N.leb_spec (hex_digit d) 57); [|lia].
    simpl. f_equal. lia.
  - destruct (N.leb_spec (hex_digit d) 57); [lia|].
    rewrite andb_false_r.
    destruct (N.leb_spec 97 (hex_digit d)); [|lia].
    destruct (N.leb_spec (hex_digit d) 102); [|lia].
    simpl. f_equal. lia.
Qed.

Lemma unhex4_hex4 (n : N) :
  n < 65536 ->
  unhex4 (hex_digit (n / 4096 mod 16)) (hex_digit (n / 256 mod 16))
         (hex_digit (n / 16 mod 16)) (hex_digit (n mod 16)) = Some n.
Proof.
  intros H. unfold unhex4.
  rewrite !unhex_hex_digit by (apply N.mod_upper_bound; lia).
  f_equal.
  nlia.
Qed.

Lemma hex_digit_printable (d : N) : d < 16 -> is_printable (hex_digit d) = true.
Proof.
  intros H. unfold is_printable.
  destruct (hex_digit_cases d H) as [[R _]|[R _]];
    apply andb_true_intro; split; apply N.leb_le; lia.
Qed.

(** The two halves of a character above [0xFFFF]. *)
Lemma high_half (n : N) :
  N.lor 0xd800 (N.land (N.shiftr n 10) 0x3ff) = 0xd800 + (n / 1024) mod 1024.
Proof.
  assert (D : N.land 0xd800 (N.land (N.shiftr n 10) 0x3ff) = 0).
  { rewrite (N.land_comm (N.shiftr n 10)), N.land_assoc. reflexivity. }
  rewrite <- N.lxor_lor by exact D.
  rewrite <- N.add_nocarry_lxor by exact D.
  change 0x3ff with (N.ones 10). now rewrite N.land_ones, N.shiftr_div_pow2.
Qed.

Lemma low_half (n : N) :
  N.lor 0xdc00 (N.land n 0x3ff) = 0xdc00 + n mod 1024.
Proof.
  assert (D : N.land 0xdc00 (N.land n 0x3ff) = 0).
  { rewrite (N.land_comm n), N.land_assoc. reflexivity. }
  rewrite <- N.lxor_lor by exact D.
  rewrite <- N.add_nocarry_lxor by exact D.
  change 0x3ff with (N.ones 10). now rewrite N.land_ones.
Qed.

Lemma escape_char_shape (c : N) : escape_shape c (escape_char c).
Proof.
  unfold escape_char, BACKSLASH, QUOTE.
  repeat match goal with
         | |- context [?x =? ?y] =>
             destruct (N.eqb_spec x y) as [->|?];
             [eapply shape_pair; [reflexivity|discriminate|reflexivity]|]
         end.
  destruct (is_printable c) eqn:P.
  - apply shape_plain; assumption.
  - destruct (N.ltb_spec c 0x10000).
    + apply shape_u; assumption.
    + cbv zeta. rewrite high_half, low_half.
      apply shape_uu. assumption.
Qed.

Lemma closing_quote_backslash (x : N) (r : str) :
  closing_quote (BACKSLASH :: x :: r) = (fun n => S (S n)) <$> closing_quote r.
Proof. reflexivity. Qed.

Lemma closing_quote_other (c : N) (r : str) :
  c <> QUOTE -> c <> BACKSLASH -> closing_quote (c :: r) = S <$> closing_quote r.
Proof.
  intros Hq Hb. cbn [closing_quote].
  destruct (N.eqb_spec c QUOTE); [contradiction|].
  destruct (N.eqb_spec c BACKSLASH); [contradiction|]. reflexivity.
Qed.

Lemma closing_quote_hex (d : N) (r : str) :
  d < 16 -> closing_quote (hex_digit d :: r) = S <$> closing_quote r.
Proof.
  intros H. apply closing_quote_other; unfold QUOTE, BACKSLASH;
    destruct (hex_digit_cases d H) as [[R _]|[R _]]; lia.
Qed.

Lemma closing_quote_u (n : N) (rest : str) (k : nat) :
  closing_quote rest = Some k ->
  closing_quote (u_escape n ++ rest) = Some (length (u_escape n) + k)%nat.
Proof.
  intros H. unfold u_escape, hex4. cbn [app].
  rewrite closing_quote_backslash.
  rewrite !closing_quote_hex by (apply N.mod_upper_bound; lia).
  rewrite H. reflexivity.
Qed.

Lemma closing_quote_shape (c : N) (e rest : str) (k : nat) :
  escape_shape c e ->
  closing_quote rest = Some k ->
  closing_quote (e ++ rest) = Some (length e + k)%nat.
Proof.
  intros [e' _ _ _|Hq Hb _|_ _|_] H.
  - cbn [app]. rewrite closing_quote_backslash, H. reflexivity.
  - cbn [app]. rewrite closing_quote_other, H by assumption. reflexivity.
  - now apply closing_quote_u.
  - rewrite <- app_assoc, length_app, <- Nat.add_assoc.
    apply closing_quote_u. now apply closing_quote_u.
Qed.

Lemma closing_quote_dumps_body (s : str) :
  closing_quote (flat_map escape_char s ++ [QUOTE])
  = Some (length (flat_map escape_char s)).
Proof.
  induction s as [|c s IH]; [reflexivity|].
  cbn [flat_map]. rewrite <- app_assoc, length_app.
  apply closing_quote_shape with (c := c); [apply escape_char_shape|exact IH].
Qed.

Lemma u_escape_printable (n : N) : Forall (fun x => is_printable x = true) (u_escape n).
Proof.
  unfold u_escape, hex4.
  repeat (constructor; [first [reflexivity|apply hex_digit_printable, N.mod_upper_bound; lia]|]).
  constructor.
Qed.

Lemma escape_shape_printable (c : N) (e : str) :
  escape_shape c e -> Forall (fun x => is_printable x = true) e.
Proof.
  intros [e' _ _ P|_ _ P|_ _|_].
  - repeat constructor. exact P.
  - repeat constructor. exact P.
  - apply u_escape_printable.
  - apply Forall_app; split; apply u_escape_printable.
Qed.

Lemma dumps_printable (s : str) : Forall (fun x => is_printable x = true) (dumps s).
Proof.
  unfold dumps. apply Forall_app; split; [repeat constructor|].
  apply Forall_app; split; [|repeat constructor].
  induction s as [|c s IH]; [constructor|].
  cbn [flat_map]. apply Forall_app; split; [|exact IH].
  apply escape_shape_printable with (c := c), escape_char_shape.
Qed.

(** Reading back. *)
Lemma body_u (a b c d : N) (r2 : str) :
  body (BACKSLASH :: 117 :: a :: b :: c :: d :: r2) =
  match unhex4 a b c d with
  | None => None
  | Some u =>
      match after_u u r2 with
      | None => None
      | Some (x, false) => cons x <$> body r2
      | Some (x, true) =>
          match r2 with
          | _ :: _ :: _ :: _ :: _ :: _ :: r3 => cons x <$> body r3
          | _ => None
          end
      end
  end.
Proof. reflexivity. Qed.

Lemma body_simple (e : N) (r : str) :
  e <> 117 ->
  body (BACKSLASH :: e :: r) =
  match simple_escape e with
  | Some x => cons x <$> body r
  | None => None
  end.
Proof.
  intros H. cbn [body].
  change (BACKSLASH =? QUOTE) with false. change (BACKSLASH =? BACKSLASH) with true.
  cbv iota. destruct (N.eqb_spec e 117); [contradiction|]. reflexivity.
Qed.

Lemma body_plain (c : N) (r : str) :
  c <> QUOTE -> c <> BACKSLASH -> 32 <= c ->
  body (c :: r) = cons c <$> body r.
Proof.
  intros Hq Hb Hc. cbn [body].
  destruct (N.eqb_spec c QUOTE); [contradiction|].
  destruct (N.eqb_spec c BACKSLASH); [contradiction|].
  destruct (N.ltb_spec c 32); [lia|]. reflexivity.
Qed.

Lemma body_shape (c : N) (e rest t : str) :
  escape_shape c e ->
  is_scalar c = true ->
  body rest = Some t ->
  body (e ++ rest) = Some (c :: t).
Proof.
  unfold is_scalar.
  intros [e' E U _|Hq Hb P|Hc P|Hc] S H.
  - cbn [app]. rewrite body_simple, E, H by assumption. reflexivity.
  - unfold is_printable in P. apply andb_prop in P as [P _]. apply N.leb_le in P.
    cbn [app]. rewrite body_plain, H by assumption. reflexivity.
  - unfold u_escape, hex4. cbn [app]. rewrite body_u, unhex4_hex4 by exact Hc.
    assert (Hh : is_high c = false).
    { unfold is_high. apply andb_false_iff.
      apply orb_prop in S as [S|S].
      - apply N.ltb_lt in S. left. apply N.leb_gt. lia.
      - apply andb_prop in S as [S _]. apply N.ltb_lt in S. right. apply N.leb_gt. lia. }
    unfold after_u. rewrite Hh, H. reflexivity.
  - assert (Hm : c <= 0x10ffff).
    { apply orb_prop in S as [S|S].
      - apply N.ltb_lt in S. lia.
      - apply andb_prop in S as [_ S]. now apply N.leb_le in S. }
    set (u := 0xd800 + ((c - 65536) / 1024) mod 1024).
    set (v := 0xdc00 + (c - 65536) mod 1024).
    assert (Hu : u < 65536) by (subst u; nlia).
    assert (Hv : v < 65536) by (subst v; nlia).
    unfold u_escape, hex4. cbn [app]. rewrite body_u, unhex4_hex4 by exact Hu.
    assert (Hh : is_high u = true).
    { unfold is_high. apply andb_true_intro; split; apply N.leb_le; subst u; nlia. }
    assert (Hl : is_low v = true).
    { unfold is_low. apply andb_true_intro; split; apply N.leb_le; subst v; nlia. }
    unfold after_u. rewrite Hh.
    change (BACKSLASH =? BACKSLASH) with true. change (117 =? 117) with true.
    cbv iota. cbn [andb]. rewrite unhex4_hex4 by exact Hv. rewrite Hl, H.
    cbn. f_equal. f_equal. unfold pair_value. subst u v. nlia.
Qed.

Lemma body_dumps_body (s : str) :
  Forall (fun c => is_scalar c = true) s ->
  body (flat_map escape_char s ++ [QUOTE]) = Some s.
Proof.
  induction 1 as [|c s Hc _ IH]; [reflexivity|].
  cbn [flat_map]. rewrite <- app_assoc.
  apply body_shape; [apply escape_char_shape|exact Hc|exact IH].
Qed.

End Json.

(** ** The loop bodies of [GetPydotGraph] *)

Section Bodies.

Import pydot.

Lemma defaultdict_get_value (d : gmap str Z) (k : str) :
  fst (defaultdict_get d k) = default 0%Z (d !! k).
Proof. unfold defaultdict_get. now destruct (d !! k). Qed.

Lemma defaultdict_get_lookup (d : gmap str Z) (k j : str) :
  default 0%Z (snd (defaultdict_get d k) !! j) = default 0%Z (d !! j).
Proof.
  unfold defaultdict_get. destruct (d !! k) eqn:E; [reflexivity|].
  cbn [snd]. destruct (decide (k = j)) as [->|Hne].
  - now rewrite lookup_insert_eq, E.
  - now rewrite lookup_insert_ne.
Qed.

Lemma defaultdict_incr_lookup (d : gmap str Z) (k j : str) :
  default 0%Z (defaultdict_incr d k !! j)
  = if decide (j = k) then (default 0 (d !! k) + 1)%Z else default 0%Z (d !! j).
Proof.
  unfold defaultdict_incr.
  pose proof (defaultdict_get_value d k) as V.
  pose proof (defaultdict_get_lookup d k j) as L.
  destruct (defaultdict_get d k) as [v d']. cbn [fst snd] in V, L.
  destruct (decide (j = k)) as [->|Hne].
  - now rewrite lookup_insert_eq, V.
  - rewrite lookup_insert_ne by congruence. exact L.
Qed.

(** What one step of the loop over the inputs does. *)
Lemma input_body_spec (op_node : Node) (st : Locals) (x : str) :
  nodes_current st ->
  let n := blob_node x (count_of st x) in
  (forall k, count_of (input_body op_node st x) k = count_of st k) /\
  pydot_nodes (input_body op_node st x) = <[x := n]> (pydot_nodes st) /\
  elements (pydot_graph (input_body op_node st x))
  = elements (pydot_graph st) ++ [ANode n; AnEdge (mkEdge n op_node)].
Proof.
  intros Inv n. unfold input_body.
  destruct (pydot_nodes st !! x) as [m|] eqn:E.
  - apply Inv in E as Em. subst m. cbn.
    repeat split.
    + now rewrite insert_id.
    + now rewrite <- app_assoc.
  - pose proof (defaultdict_get_value (pydot_node_counts st) x) as V.
    pose proof (defaultdict_get_lookup (pydot_node_counts st) x) as L.
    destruct (defaultdict_get (pydot_node_counts st) x) as [v d'].
    cbn [fst snd] in V, L. subst v. cbn.
    repeat split.
    + intros k. unfold count_of. cbn. apply L.
    + now rewrite <- app_assoc.
Qed.

(** What one step of the loop over the outputs does. *)
Lemma output_body_spec (op_node : Node) (st : Locals) (x : str) :
  let n := blob_node x (next_count st x) in
  (forall k, count_of (output_body op_node st x) k
             = if decide (k = x) then next_count st x else count_of st k) /\
  pydot_nodes (output_body op_node st x) = <[x := n]> (pydot_nodes st) /\
  elements (pydot_graph (output_body op_node st x))
  = elements (pydot_graph st) ++ [ANode n; AnEdge (mkEdge op_node n)].
Proof.
  intros n. subst n. unfold output_body, next_count.
  set (c0 := match pydot_nodes st !! x with
             | Some _ => defaultdict_incr (pydot_node_counts st) x
             | None => pydot_node_counts st
             end).
  assert (C : forall k, default 0%Z (c0 !! k)
                        = if decide (k = x)
                          then match pydot_nodes st !! x with
                               | Some _ => (count_of st x + 1)%Z
                               | None => count_of st x
                               end
                          else count_of st k).
  { intros k. subst c0. unfold count_of.
    destruct (pydot_nodes st !! x).
    - apply defaultdict_incr_lookup.
    - destruct (decide (k = x)) as [->|]; reflexivity. }
  pose proof (defaultdict_get_value c0 x) as V.
  pose proof (defaultdict_get_lookup c0 x) as L.
  destruct (defaultdict_get c0 x) as [v d']. cbn [fst snd] in V, L.
  rewrite C in V. destruct (decide (x = x)); [|congruence]. subst v. cbn.
  repeat split.
  - intros k. unfold count_of at 1. cbn. rewrite L. apply C.
  - now rewrite <- app_assoc.
Qed.

Lemma input_body_current (op_node : Node) (st : Locals) (x : str) :
  nodes_current st -> nodes_current (input_body op_node st x).
Proof.
  intros Inv. destruct (input_body_spec op_node st x Inv) as (C & N & _).
  intros k m. rewrite N, C. destruct (decide (x = k)) as [->|Hne].
  - rewrite lookup_insert_eq. congruence.
  - rewrite lookup_insert_ne by exact Hne. apply Inv.
Qed.

Lemma output_body_current (op_node : Node) (st : Locals) (x : str) :
  nodes_current st -> nodes_current (output_body op_node st x).
Proof.
  intros Inv. destruct (output_body_spec op_node st x) as (C & N & _).
  intros k m. rewrite N, C. destruct (decide (x = k)) as [->|Hne].
  - rewrite lookup_insert_eq. destruct (decide (k = k)); congruence.
  - rewrite lookup_insert_ne by exact Hne.
    destruct (decide (k = x)); [congruence|]. apply Inv.
Qed.

End Bodies.

(** ** The loops of [GetPydotGraph] *)

Section Loops.

Import pydot.

Variable node_producer : NodeProducer.
Variable marked_list : list Z.

Lemma grows_refl (st : Locals) : grows st st.
Proof.
  split; [|split]; [exists []; now rewrite app_nil_r|auto|intros; apply Z.le_refl].
Qed.

Lemma grows_trans (a b c : Locals) : grows a b -> grows b c -> grows a c.
Proof.
  intros ([m1 E1] & P1 & C1) ([m2 E2] & P2 & C2).
  split; [|split].
  - exists (m1 ++ m2). now rewrite E2, E1, app_assoc.
  - auto.
  - intros o. eapply Z.le_trans; [apply C1|apply C2].
Qed.

Lemma input_body_grows (op_node : Node) (st : Locals) (x : str) :
  nodes_current st -> grows st (input_body op_node st x).
Proof.
  intros Inv. destruct (input_body_spec op_node st x Inv) as (C & N & E).
  split; [|split].
  - eexists. exact E.
  - intros o Ho. rewrite N. destruct (decide (x = o)) as [->|Hne].
    + rewrite lookup_insert_eq. eauto.
    + now rewrite lookup_insert_ne.
  - intros o. rewrite C. apply Z.le_refl.
Qed.

Lemma next_count_ge (st : Locals) (x : str) : (count_of st x <= next_count st x)%Z.
Proof. unfold next_count. destruct (pydot_nodes st !! x); lia. Qed.

Lemma output_body_grows (op_node : Node) (st : Locals) (x : str) :
  grows st (output_body op_node st x).
Proof.
  destruct (output_body_spec op_node st x) as (C & N & E).
  split; [|split].
  - eexists. exact E.
  - intros o Ho. rewrite N. destruct (decide (x = o)) as [->|Hne].
    + rewrite lookup_insert_eq. eauto.
    + now rewrite lookup_insert_ne.
  - intros o. rewrite C. destruct (decide (o = x)) as [->|]; [|apply Z.le_refl].
    apply next_count_ge.
Qed.

Lemma inputs_loop (op_node : Node) (l : list str) (st : Locals) :
  nodes_current st ->
  nodes_current (fold_left (input_body op_node) l st) /\
  grows st (fold_left (input_body op_node) l st).
Proof.
  revert st. induction l as [|x l IH]; intros st Inv; cbn [fold_left].
  - split; [exact Inv|apply grows_refl].
  - destruct (IH (input_body op_node st x)) as [I G].
    { now apply input_body_current. }
    split; [exact I|].
    eapply grows_trans; [apply input_body_grows; exact Inv|exact G].
Qed.

Lemma outputs_loop (op_node : Node) (l : list str) (st : Locals) :
  nodes_current st ->
  nodes_current (fold_left (output_body op_node) l st) /\
  grows st (fold_left (output_body op_node) l st).
Proof.
  revert st. induction l as [|x l IH]; intros st Inv; cbn [fold_left].
  - split; [exact Inv|apply grows_refl].
  - destruct (IH (output_body op_node st x)) as [I G].
    { now apply output_body_current. }
    split; [exact I|].
    eapply grows_trans; [apply output_body_grows|exact G].
Qed.

(** The local variables once the operator node is added. *)
Lemma op_body_unfold (st : Locals) (i : Z) (op : onnx.NodeProto) :
  op_body node_producer marked_list st (i, op)
  = let op_node := make_op_node node_producer marked_list i op in
    fold_left (output_body op_node) (onnx.output op)
      (fold_left (input_body op_node) (onnx.input op)
         {| pydot_graph := add_node (pydot_graph st) op_node;
            pydot_nodes := pydot_nodes st;
            pydot_node_counts := pydot_node_counts st |}).
Proof. reflexivity. Qed.

Lemma add_op_node_step (st : Locals) (n : Node) :
  nodes_current st ->
  let st' := {| pydot_graph := add_node (pydot_graph st) n;
                pydot_nodes := pydot_nodes st;
                pydot_node_counts := pydot_node_counts st |} in
  nodes_current st' /\ grows st st'.
Proof.
  intros Inv st'. split.
  - exact Inv.
  - split; [|split]; [eexists; reflexivity|auto|intros; apply Z.le_refl].
Qed.

Lemma op_body_loop (st : Locals) (i : Z) (op : onnx.NodeProto) :
  nodes_current st ->
  nodes_current (op_body node_producer marked_list st (i, op)) /\
  grows st (op_body node_producer marked_list st (i, op)).
Proof.
  intros Inv. rewrite op_body_unfold. cbv zeta.
  set (n := make_op_node node_producer marked_list i op).
  destruct (add_op_node_step st n Inv) as [I0 G0].
  destruct (inputs_loop n (onnx.input op) _ I0) as [I1 G1].
  destruct (outputs_loop n (onnx.output op) _ I1) as [I2 G2].
  split; [exact I2|].
  eapply grows_trans; [exact G0|]. eapply grows_trans; [exact G1|exact G2].
Qed.

Lemma run_from_loop (ops : list onnx.NodeProto) (st : Locals) (i : Z) :
  nodes_current st ->
  nodes_current (run_from node_producer marked_list st i ops) /\
  grows st (run_from node_producer marked_list st i ops).
Proof.
  unfold run_from. revert st i.
  induction ops as [|op ops IH]; intros st i Inv; cbn [enumerate_from fold_left].
  - split; [exact Inv|apply grows_refl].
  - destruct (op_body_loop st i op Inv) as [I G].
    destruct (IH _ (i + 1)%Z I) as [I' G'].
    split; [exact I'|]. eapply grows_trans; [exact G|exact G'].
Qed.

Lemma initial_current (name : option str) (rankdir : str) :
  nodes_current (initial_locals name rankdir).
Proof. intros k n. cbn. now rewrite lookup_empty. Qed.

Lemma enumerate_from_app {A : Type} (i : Z) (l1 l2 : list A) :
  enumerate_from i (l1 ++ l2)
  = enumerate_from i l1 ++ enumerate_from (i + Z.of_nat (length l1))%Z l2.
Proof.
  revert i. induction l1 as [|x l1 IH]; intros i; cbn [app enumerate_from length].
  - now rewrite Z.add_0_r.
  - rewrite IH. do 3 f_equal. lia.
Qed.

Lemma run_from_app (st : Locals) (i : Z) (l1 l2 : list onnx.NodeProto) :
  run_from node_producer marked_list st i (l1 ++ l2)
  = run_from node_producer marked_list
      (run_from node_producer marked_list st i l1) (i + Z.of_nat (length l1))%Z l2.
Proof. unfold run_from. now rewrite enumerate_from_app, fold_left_app. Qed.

Lemma run_from_one (st : Locals) (i : Z) (op : onnx.NodeProto) :
  run_from node_producer marked_list st i [op]
  = op_body node_producer marked_list st (i, op).
Proof. reflexivity. Qed.

(** A write of [o] leaves a value node under [o], with an edge from the
    operator node to it, and moves the counter of a name that had one. *)
Lemma outputs_loop_writes (op_node : Node) (l : list str) (st : Locals) (o : str) :
  nodes_current st ->
  In o l ->
  exists n,
    pydot_nodes (fold_left (output_body op_node) l st) !! o = Some n /\
    In (AnEdge (mkEdge op_node n))
       (elements (pydot_graph (fold_left (output_body op_node) l st))) /\
    (is_Some (pydot_nodes st !! o) ->
     (count_of st o + 1 <= count_of (fold_left (output_body op_node) l st) o)%Z).
Proof.
  intros Inv. induction l as [|x l IH] using rev_ind; [intros []|].
  intros Hin. rewrite fold_left_app. cbn [fold_left].
  set (st1 := fold_left (output_body op_node) l st) in *.
  destruct (outputs_loop op_node l st Inv) as [I1 (_ & P1 & C1)]. fold st1 in I1, P1, C1.
  destruct (output_body_spec op_node st1 x) as (C & N & E).
  destruct (decide (x = o)) as [->|Hne].
  - exists (blob_node o (next_count st1 o)). split; [|split].
    + rewrite N. apply lookup_insert_eq.
    + rewrite E. apply in_or_app. right. right. now left.
    + intros Ho. rewrite C. destruct (decide (o = o)); [|congruence].
      unfold next_count. destruct (P1 o Ho) as [m ->]. specialize (C1 o). lia.
  - apply in_app_or in Hin as [Hin|[Hin|[]]]; [|congruence].
    destruct (IH Hin) as (n & Hn & He & Hc).
    exists n. split; [|split].
    + rewrite N, lookup_insert_ne by exact Hne. exact Hn.
    + rewrite E. apply in_or_app. now left.
    + intros Ho. rewrite C. destruct (decide (o = x)); [congruence|]. auto.
Qed.

Lemma op_body_writes (st : Locals) (i : Z) (op : onnx.NodeProto) (o : str) :
  nodes_current st ->
  In o (onnx.output op) ->
  exists n,
    pydot_nodes (op_body node_producer marked_list st (i, op)) !! o = Some n /\
    In (AnEdge (mkEdge (make_op_node node_producer marked_list i op) n))
       (elements (pydot_graph (op_body node_producer marked_list st (i, op)))) /\
    (is_Some (pydot_nodes st !! o) ->
     (count_of st o + 1 <= count_of (op_body node_producer marked_list st (i, op)) o)%Z).
Proof.
  intros Inv Hin. rewrite op_body_unfold. cbv zeta.
  set (n := make_op_node node_producer marked_list i op).
  destruct (add_op_node_step st n Inv) as [I0 G0].
  destruct (inputs_loop n (onnx.input op) _ I0) as [I1 G1].
  pose proof (grows_trans _ _ _ G0 G1) as (_ & P & C).
  destruct (outputs_loop_writes n (onnx.output op) _ o I1 Hin) as (m & Hm & He & Hc).
  exists m. split; [exact Hm|split; [exact He|]].
  intros Ho. specialize (Hc (P o Ho)). specialize (C o). lia.
Qed.

End Loops.

(** ** Value nodes and their occurrences *)

Lemma run_ops_run_from (np : NodeProducer) (ml : list Z) (name : option str)
    (rankdir : str) (ops : list onnx.NodeProto) :
  run_ops np ml name rankdir ops
  = run_from np ml (initial_locals name rankdir) 0%Z ops.
Proof. reflexivity. Qed.

Lemma blob_node_label (o : str) (c : Z) :
  pydot.get (lit "label") (blob_node o c) = Some (_escape_label o).
Proof. reflexivity. Qed.

Lemma blob_node_name (o : str) (c : Z) :
  pydot.get_name (blob_node o c) = _escape_label (o ++ str_int c).
Proof. reflexivity. Qed.

(** C1. In [GetPydotGraph], a write of an output name [o] first moves the
    occurrence counter of [o] by one when a value node exists under [o]
    (and leaves it otherwise), then makes the value node of [o] at that
    counter, keeps it under [o], and adds it and an edge from the operator
    node to it at the end of the graph.  Hence, when an operator [A] and a
    later operator [B] both write [o], the value node under [o] after [B]
    has another identity than the one under [o] after [A], both have the
    escaped name [o] as label, and the graph has an edge from the node of
    [A] to the first and from the node of [B] to the second. *)
Theorem rewritten_value_gets_fresh_identity :
  (forall (op_node : pydot.Node) (st : Locals) (o : str),
      let st' := output_body op_node st o in
      let n := blob_node o (count_of st' o) in
      (is_Some (pydot_nodes st !! o) -> count_of st' o = (count_of st o + 1)%Z) /\
      (pydot_nodes st !! o = None -> count_of st' o = count_of st o) /\
      pydot_nodes st' !! o = Some n /\
      pydot.get_name n = _escape_label (o ++ str_int (count_of st' o)) /\
      pydot.elements (pydot_graph st')
      = pydot.elements (pydot_graph st)
        ++ [pydot.ANode n; pydot.AnEdge (pydot.mkEdge op_node n)]) /\
  (forall (np : NodeProducer) (ml : list Z) (name : option str) (rankdir : str)
          (pre : list onnx.NodeProto) (A : onnx.NodeProto)
          (mid : list onnx.NodeProto) (B : onnx.NodeProto) (o : str),
      In o (onnx.output A) ->
      In o (onnx.output B) ->
      let s1 := run_ops np ml name rankdir (pre ++ [A]) in
      let s2 := run_ops np ml name rankdir (pre ++ [A] ++ mid ++ [B]) in
      let opA := make_op_node np ml (Z.of_nat (length pre)) A in
      let opB :=
        make_op_node np ml (Z.of_nat (length pre) + 1 + Z.of_nat (length mid))%Z B in
      exists n1 n2,
        pydot_nodes s1 !! o = Some n1 /\
        pydot_nodes s2 !! o = Some n2 /\
        n1 = blob_node o (count_of s1 o) /\
        n2 = blob_node o (count_of s2 o) /\
        (count_of s1 o < count_of s2 o)%Z /\
        pydot.get_name n1 <> pydot.get_name n2 /\
        pydot.get (lit "label") n1 = Some (_escape_label o) /\
        pydot.get (lit "label") n2 = Some (_escape_label o) /\
        In (pydot.AnEdge (pydot.mkEdge opA n1)) (pydot.elements (pydot_graph s2)) /\
        In (pydot.AnEdge (pydot.mkEdge opB n2)) (pydot.elements (pydot_graph s2))).
Proof.
  split.
  - intros op_node st o st' n.
    destruct (output_body_spec op_node st o) as (C & N & E).
    assert (Hc : count_of st' o = next_count st o).
    { subst st'. rewrite C. destruct (decide (o = o)); congruence. }
    subst n. rewrite Hc. repeat split.
    + intros [m Hm]. unfold next_count. now rewrite Hm.
    + intros Hm. unfold next_count. now rewrite Hm.
    + subst st'. rewrite N. apply lookup_insert_eq.
    + exact E.
  - intros np ml name rankdir pre A mid B o HA HB s1 s2 opA opB.
    set (st0 := run_from np ml (initial_locals name rankdir) 0%Z pre).
    assert (E1 : s1 = op_body np ml st0 (Z.of_nat (length pre), A)).
    { subst s1 st0. now rewrite run_ops_run_from, run_from_app, run_from_one. }
    set (i1 := (Z.of_nat (length pre) + 1)%Z).
    set (st2 := run_from np ml s1 i1 mid).
    assert (E2 : s2 = op_body np ml st2 (i1 + Z.of_nat (length mid), B)%Z).
    { subst s2 st2 i1. rewrite run_ops_run_from.
      change (pre ++ [A] ++ mid ++ [B]) with (pre ++ [A] ++ (mid ++ [B])).
      rewrite app_assoc, run_from_app, <- run_ops_run_from. fold s1.
      rewrite length_app, run_from_app, run_from_one. cbn [length].
      now replace (0 + Z.of_nat (length pre + 1))%Z
        with (Z.of_nat (length pre) + 1)%Z by lia. }
    destruct (run_from_loop np ml pre _ 0%Z (initial_current name rankdir)) as [I0 _].
    fold st0 in I0.
    destruct (op_body_loop np ml st0 (Z.of_nat (length pre)) A I0) as [I1 _].
    rewrite <- E1 in I1.
    destruct (op_body_writes np ml st0 (Z.of_nat (length pre)) A o I0 HA)
      as (n1 & Hn1 & He1 & _).
    rewrite <- E1 in Hn1, He1. fold opA in He1.
    destruct (run_from_loop np ml mid s1 i1 I1) as [I2 G2]. fold st2 in I2, G2.
    destruct (op_body_loop np ml st2 (i1 + Z.of_nat (length mid))%Z B I2) as [I3 G3].
    destruct (op_body_writes np ml st2 (i1 + Z.of_nat (length mid))%Z B o I2 HB)
      as (n2 & Hn2 & He2 & Hc2).
    rewrite <- E2 in I3, G3, Hn2, He2, Hc2. fold opB in He2.
    destruct G2 as ([m2 Em2] & P2 & C2).
    assert (Hlt : (count_of s1 o < count_of s2 o)%Z).
    { specialize (Hc2 (P2 o (ex_intro _ n1 Hn1))). specialize (C2 o). lia. }
    pose proof (I1 _ _ Hn1) as B1. pose proof (I3 _ _ Hn2) as B2.
    exists n1, n2. repeat split; try assumption.
    + rewrite B1, B2, !blob_node_name. intros Heq.
      apply identity_inj in Heq. lia.
    + rewrite B1. apply blob_node_label.
    + rewrite B2. apply blob_node_label.
    + destruct G3 as ([m3 Em3] & _).
      rewrite Em3, Em2. apply in_or_app. left. apply in_or_app. now left.
Qed.

Lemma rewritten_value_gets_fresh_identity_witness :
  exists n1 n2,
    pydot_nodes (run_ops (ReallyGetOpNode false) [] None (lit "LR") [add_op []])
      !! lit "z" = Some n1 /\
    pydot_nodes (run_ops (ReallyGetOpNode false) [] None (lit "LR")
                   [add_op []; relu_op])
      !! lit "z" = Some n2 /\
    pydot.get_name n1 <> pydot.get_name n2.
Proof.
  destruct (proj2 rewritten_value_gets_fresh_identity
              (ReallyGetOpNode false) [] None (lit "LR")
              [] (add_op []) [] relu_op (lit "z"))
    as (n1 & n2 & H1 & H2 & _ & _ & _ & Hne & _).
  - left. reflexivity.
  - left. reflexivity.
  - exists n1, n2. split; [exact H1|]. split; [exact H2|exact Hne].
Defined.


(** ** Operator nodes *)

Section OpNodes.

Import pydot.

Lemma fold_left_append {A : Type} (f : A -> str) (l : list A) (init : str) :
  fold_left (fun acc x => acc ++ f x) l init = init ++ concat (map f l).
Proof.
  revert init. induction l as [|x l IH]; intros init; cbn [fold_left map concat].
  - now rewrite app_nil_r.
  - now rewrite IH, app_assoc.
Qed.

Lemma fold_left_pointwise {A B : Type} (f g : A -> B -> A) (l : list B) (a : A) :
  (forall a x, f a x = g a x) -> fold_left f l a = fold_left g l a.
Proof.
  intros H. revert a. induction l as [|x l IH]; intros a; cbn [fold_left].
  - reflexivity.
  - now rewrite H, IH.
Qed.

(** The text that [ReallyGetOpNode] builds in [node_name]. *)
Lemma node_name_text (op : onnx.NodeProto) (op_id : Z) :
  fold_left (fun node_name '(i, output) =>
               node_name ++ (NEWLINE :: lit " output") ++ str_int i ++ lit " " ++ output)
    (enumerate (onnx.output op))
    (fold_left (fun node_name '(i, input) =>
                  node_name ++ (NEWLINE :: lit " input") ++ str_int i ++ lit " " ++ input)
       (enumerate (onnx.input op))
       (match onnx.name op with
        | _ :: _ =>
            onnx.name op ++ lit "/" ++ onnx.op_type op
            ++ lit " (op#" ++ str_int op_id ++ lit ")"
        | [] => onnx.op_type op ++ lit " (op#" ++ str_int op_id ++ lit ")"
        end))
  = op_label (onnx.name op) (onnx.op_type op) op_id (onnx.input op) (onnx.output op).
Proof.
  unfold op_label, op_label_head.
  set (head := match onnx.name op with [] => _ | _ :: _ => _ end).
  transitivity
    (fold_left (fun acc x => acc ++ op_label_line (lit "output") x)
       (enumerate (onnx.output op))
       (fold_left (fun acc x => acc ++ op_label_line (lit "input") x)
          (enumerate (onnx.input op)) head)).
  - rewrite (fold_left_pointwise _
               (fun acc x => acc ++ op_label_line (lit "output") x))
      by (intros a [i y]; reflexivity).
    f_equal.
    rewrite (fold_left_pointwise _
               (fun acc x => acc ++ op_label_line (lit "input") x))
      by (intros a [i y]; reflexivity).
    reflexivity.
  - now rewrite !fold_left_append, <- app_assoc.
Qed.

(** The node that [ReallyGetOpNode] makes: [pydot.Node] on the label of the
    operator, with the [URL] set when the documentation is embedded. *)
Lemma ReallyGetOpNode_made (embed_docstring : bool) (op : onnx.NodeProto)
    (op_id : Z) (kwargs : list (str * str)) :
  ReallyGetOpNode embed_docstring op op_id kwargs
  = let node :=
      mkNode (op_label (onnx.name op) (onnx.op_type op) op_id
                (onnx.input op) (onnx.output op)) kwargs in
    if embed_docstring
    then set_URL (_form_and_sanitize_docstring (onnx.doc_string op)) node
    else node.
Proof.
  cbv zeta. rewrite <- node_name_text. reflexivity.
Qed.

Lemma ReallyGetOpNode_name (embed_docstring : bool) (op : onnx.NodeProto)
    (op_id : Z) (kwargs : list (str * str)) :
  get_name (ReallyGetOpNode embed_docstring op op_id kwargs)
  = fst (split_port (op_label (onnx.name op) (onnx.op_type op) op_id
                       (onnx.input op) (onnx.output op))).
Proof.
  rewrite ReallyGetOpNode_made. cbv zeta. now destruct embed_docstring.
Qed.

Lemma blob_node_not_op (o : str) (c : Z) : is_op_node (blob_node o c) = false.
Proof. reflexivity. Qed.

Lemma ReallyGetOpNode_is_op (embed_docstring : bool) (ml : list Z)
    (i : Z) (op : onnx.NodeProto) :
  is_op_node (make_op_node (ReallyGetOpNode embed_docstring) ml i op) = true.
Proof.
  unfold make_op_node. destruct (in_list i ml), embed_docstring; reflexivity.
Qed.

Lemma op_nodes_snoc_blob (g g' : Dot) (o : str) (c : Z) (e : Edge) :
  elements g' = elements g ++ [ANode (blob_node o c); AnEdge e] ->
  op_nodes g' = op_nodes g.
Proof.
  intros E. unfold op_nodes, get_nodes, nodes_of.
  rewrite E, flat_map_app, List.filter_app. cbn. now rewrite app_nil_r.
Qed.

Section Producer.

Variable node_producer : NodeProducer.
Variable marked_list : list Z.
Hypothesis boxes :
  forall i op, is_op_node (make_op_node node_producer marked_list i op) = true.

Lemma op_nodes_inputs (op_node : Node) (l : list str) (st : Locals) :
  nodes_current st ->
  op_nodes (pydot_graph (fold_left (input_body op_node) l st))
  = op_nodes (pydot_graph st).
Proof.
  revert st. induction l as [|x l IH]; intros st Inv; cbn [fold_left]; [reflexivity|].
  rewrite IH by now apply input_body_current.
  destruct (input_body_spec op_node st x Inv) as (_ & _ & E).
  eapply op_nodes_snoc_blob, E.
Qed.

Lemma op_nodes_outputs (op_node : Node) (l : list str) (st : Locals) :
  op_nodes (pydot_graph (fold_left (output_body op_node) l st))
  = op_nodes (pydot_graph st).
Proof.
  revert st. induction l as [|x l IH]; intros st; cbn [fold_left]; [reflexivity|].
  rewrite IH.
  destruct (output_body_spec op_node st x) as (_ & _ & E).
  eapply op_nodes_snoc_blob, E.
Qed.

Lemma op_nodes_op_body (st : Locals) (i : Z) (op : onnx.NodeProto) :
  nodes_current st ->
  op_nodes (pydot_graph (op_body node_producer marked_list st (i, op)))
  = op_nodes (pydot_graph st) ++ [make_op_node node_producer marked_list i op].
Proof.
  intros Inv. rewrite op_body_unfold. cbv zeta.
  rewrite op_nodes_outputs, op_nodes_inputs by exact Inv.
  unfold op_nodes, get_nodes, nodes_of. cbn [pydot_graph add_node elements].
  rewrite flat_map_app, List.filter_app. cbn. now rewrite boxes.
Qed.

Lemma op_nodes_run_from (ops : list onnx.NodeProto) (st : Locals) (i : Z) :
  nodes_current st ->
  op_nodes (pydot_graph (run_from node_producer marked_list st i ops))
  = op_nodes (pydot_graph st)
    ++ map (fun x => make_op_node node_producer marked_list (fst x) (snd x))
           (enumerate_from i ops).
Proof.
  unfold run_from. revert st i.
  induction ops as [|op ops IH]; intros st i Inv; cbn [enumerate_from fold_left map].
  - now rewrite app_nil_r.
  - rewrite IH by now apply op_body_loop.
    rewrite op_nodes_op_body by exact Inv. now rewrite <- app_assoc.
Qed.

End Producer.


Lemma enumerate_from_lookup {A : Type} (l : list A) (k : Z) (i : nat) (x : A) :
  l !! i = Some x -> enumerate_from k l !! i = Some ((k + Z.of_nat i)%Z, x).
Proof.
  revert k i. induction l as [|y l IH]; intros k i H; [discriminate H|].
  destruct i as [|i].
  - simpl in H. injection H as ->. simpl. now rewrite Z.add_0_r.
  - simpl in H. specialize (IH (k + 1)%Z i H). simpl.
    rewrite IH. do 2 f_equal. lia.
Qed.

Lemma map_lookup {A B : Type} (f : A -> B) (l : list A) (i : nat) (x : A) :
  l !! i = Some x -> map f l !! i = Some (f x).
Proof.
  revert i. induction l as [|y l IH]; intros i H; [discriminate H|].
  destruct i as [|i]; simpl in H |- *.
  - now injection H as ->.
  - now apply IH.
Qed.

(** The operator nodes of the graph built with the producer of this file. *)
Lemma op_nodes_GetPydotGraph (graph : onnx.GraphProto) (name : option str)
    (rankdir : str) (embed_docstring : bool) (marked_list : list Z) :
  op_nodes (GetPydotGraph graph name rankdir None embed_docstring marked_list)
  = map (fun x => make_op_node (ReallyGetOpNode embed_docstring) marked_list
                    (fst x) (snd x))
        (enumerate (onnx.node graph)).
Proof.
  unfold GetPydotGraph, GetOpNodeProducer. rewrite run_ops_run_from.
  rewrite op_nodes_run_from.
  - reflexivity.
  - apply ReallyGetOpNode_is_op.
  - apply initial_current.
Qed.

Lemma in_list_In (i : Z) (l : list Z) : in_list i l = true <-> In i l.
Proof.
  unfold in_list. rewrite existsb_exists. split.
  - intros (x & Hx & E). apply Z.eqb_eq in E. now subst.
  - intros H. exists i. split; [exact H|apply Z.eqb_refl].
Qed.

End OpNodes.

(** ** Edges come after their end nodes *)

Section EdgeOrder.

Import pydot.

Lemma follow_nil : edges_follow_nodes [].
Proof. intros pre e post H. destruct pre; discriminate H. Qed.

Lemma follow_snoc_node (l : list Element) (n : Node) :
  edges_follow_nodes l -> edges_follow_nodes (l ++ [ANode n]).
Proof.
  intros F pre e post H.
  destruct post as [|y post _] using rev_ind.
  - apply app_inj_tail in H as [_ H]. discriminate H.
  - change (pre ++ AnEdge e :: post ++ [y]) with (pre ++ (AnEdge e :: post) ++ [y]) in H.
    rewrite app_assoc in H. apply app_inj_tail in H as [H _].
    exact (F pre e post H).
Qed.

Lemma follow_snoc_edge (l : list Element) (a b : Node) :
  edges_follow_nodes l ->
  In (ANode a) l -> In (ANode b) l ->
  edges_follow_nodes (l ++ [AnEdge (mkEdge a b)]).
Proof.
  intros F Ha Hb pre e post H.
  destruct post as [|y post _] using rev_ind.
  - apply app_inj_tail in H as [-> H]. injection H as <-.
    split; [exists a|exists b]; split; auto.
  - change (pre ++ AnEdge e :: post ++ [y]) with (pre ++ (AnEdge e :: post) ++ [y]) in H.
    rewrite app_assoc in H. apply app_inj_tail in H as [H _].
    exact (F pre e post H).
Qed.

(** The elements a step adds, whatever the local variables. *)
Lemma input_body_elements (op_node : Node) (st : Locals) (x : str) :
  exists n,
    elements (pydot_graph (input_body op_node st x))
    = (elements (pydot_graph st) ++ [ANode n]) ++ [AnEdge (mkEdge n op_node)].
Proof.
  unfold input_body. destruct (pydot_nodes st !! x) as [m|].
  - now exists m.
  - destruct (defaultdict_get (pydot_node_counts st) x) as [c d].
    now eexists.
Qed.

Lemma output_body_elements (op_node : Node) (st : Locals) (x : str) :
  exists n,
    elements (pydot_graph (output_body op_node st x))
    = (elements (pydot_graph st) ++ [ANode n]) ++ [AnEdge (mkEdge op_node n)].
Proof.
  destruct (output_body_spec op_node st x) as (_ & _ & E).
  eexists. rewrite E, <- app_assoc. reflexivity.
Qed.

Lemma input_body_follow (op_node : Node) (st : Locals) (x : str) :
  edges_follow_nodes (elements (pydot_graph st)) /\
  In (ANode op_node) (elements (pydot_graph st)) ->
  edges_follow_nodes (elements (pydot_graph (input_body op_node st x))) /\
  In (ANode op_node) (elements (pydot_graph (input_body op_node st x))).
Proof.
  intros [F H]. destruct (input_body_elements op_node st x) as [n ->]. split.
  - apply follow_snoc_edge.
    + now apply follow_snoc_node.
    + apply in_or_app. right. now left.
    + apply in_or_app. now left.
  - apply in_or_app. left. apply in_or_app. now left.
Qed.

Lemma output_body_follow (op_node : Node) (st : Locals) (x : str) :
  edges_follow_nodes (elements (pydot_graph st)) /\
  In (ANode op_node) (elements (pydot_graph st)) ->
  edges_follow_nodes (elements (pydot_graph (output_body op_node st x))) /\
  In (ANode op_node) (elements (pydot_graph (output_body op_node st x))).
Proof.
  intros [F H]. destruct (output_body_elements op_node st x) as [n ->]. split.
  - apply follow_snoc_edge.
    + now apply follow_snoc_node.
    + apply in_or_app. now left.
    + apply in_or_app. right. now left.
  - apply in_or_app. left. apply in_or_app. now left.
Qed.

Lemma fold_left_keeps {A B : Type} (P : A -> Prop) (f : A -> B -> A) (l : list B) :
  (forall a b, P a -> P (f a b)) -> forall a, P a -> P (fold_left f l a).
Proof. intros Hf. induction l as [|b l IH]; intros a Ha; cbn; auto. Qed.

Lemma op_body_follow (np : NodeProducer) (ml : list Z) (st : Locals)
    (x : Z * onnx.NodeProto) :
  edges_follow_nodes (elements (pydot_graph st)) ->
  edges_follow_nodes (elements (pydot_graph (op_body np ml st x))).
Proof.
  intros F. destruct x as [i op]. rewrite op_body_unfold. cbv zeta.
  set (n := make_op_node np ml i op).
  eapply proj1.
  apply (fold_left_keeps
           (fun s => edges_follow_nodes (elements (pydot_graph s)) /\
                     In (ANode n) (elements (pydot_graph s)))).
  { intros a b. apply output_body_follow. }
  apply (fold_left_keeps
           (fun s => edges_follow_nodes (elements (pydot_graph s)) /\
                     In (ANode n) (elements (pydot_graph s)))).
  { intros a b. apply input_body_follow. }
  cbn. split.
  - now apply follow_snoc_node.
  - apply in_or_app. right. now left.
Qed.

End EdgeOrder.

(** C9. In the graph that [GetPydotGraph] returns, whatever the operators,
    the node producer and the highlight list, every edge was added after a
    node with the name of its source and after a node with the name of its
    destination: both end nodes are in the graph when the edge is added. *)
Theorem edges_added_after_their_nodes
    (graph : onnx.GraphProto) (name : option str) (rankdir : str)
    (node_producer : option NodeProducer) (embed_docstring : bool)
    (marked_list : list Z) :
  edges_follow_nodes
    (pydot.elements
       (GetPydotGraph graph name rankdir node_producer embed_docstring marked_list)).
Proof.
  unfold GetPydotGraph, run_ops.
  apply (fold_left_keeps
           (fun s => edges_follow_nodes (pydot.elements (pydot_graph s)))).
  - intros a b. apply op_body_follow.
  - apply follow_nil.
Qed.

(** ** The scenario of one operator *)

(** The elements of the graph of the one operator, whatever the node
    producer gives for it. *)
Lemma single_op_elements
    (np : NodeProducer) (doc gname : str) (name : option str) (rankdir : str) :
  let op_node := np (add_op doc) 0%Z OP_STYLE in
  let x := blob_node (lit "x") 0 in
  let y := blob_node (lit "y") 0 in
  let z := blob_node (lit "z") 0 in
  pydot.elements
    (pydot_graph (run_ops np [] name rankdir [add_op doc]))
  = [pydot.ANode op_node;
     pydot.ANode x; pydot.AnEdge (pydot.mkEdge x op_node);
     pydot.ANode y; pydot.AnEdge (pydot.mkEdge y op_node);
     pydot.ANode z; pydot.AnEdge (pydot.mkEdge op_node z)].
Proof. vm_compute. reflexivity. Qed.

(** C2. For one operator [Add] without a name, with the inputs [x] and [y]
    and the output [z], and an empty highlight list, [GetPydotGraph] adds,
    in this order: the operator node, whose name is the label
    [Add (op#0)] followed by the lines [ input0 x], [ input1 y] and
    [ output0 z]; the value node of [x] and the edge from it to the
    operator node; the same for [y]; the value node of [z] and the edge
    from the operator node to it.  So the graph has one operator node, the
    value nodes labelled [x], [y] and [z], and three edges. *)
Theorem single_add_operator
    (doc gname : str) (name : option str) (rankdir : str) (embed_docstring : bool) :
  let g :=
    GetPydotGraph {| onnx.node := [add_op doc]; onnx.graph_name := gname |}
                  name rankdir None embed_docstring [] in
  let label :=
    lit "Add (op#0)" ++ [NEWLINE] ++ lit " input0 x" ++ [NEWLINE] ++ lit " input1 y"
    ++ [NEWLINE] ++ lit " output0 z" in
  let op_node :=
    if embed_docstring
    then pydot.set_URL (_form_and_sanitize_docstring doc) (pydot.mkNode label OP_STYLE)
    else pydot.mkNode label OP_STYLE in
  let value (identity plain : str) :=
    pydot.mkNode ([QUOTE] ++ identity ++ [QUOTE])
                 [(lit "label", [QUOTE] ++ plain ++ [QUOTE]); (lit "shape", lit "octagon")] in
  let x := value (lit "x0") (lit "x") in
  let y := value (lit "y0") (lit "y") in
  let z := value (lit "z0") (lit "z") in
  pydot.get_name op_node = label /\
  pydot.elements g
  = [pydot.ANode op_node;
     pydot.ANode x; pydot.AnEdge (pydot.mkEdge x op_node);
     pydot.ANode y; pydot.AnEdge (pydot.mkEdge y op_node);
     pydot.ANode z; pydot.AnEdge (pydot.mkEdge op_node z)] /\
  op_nodes g = [op_node] /\
  value_nodes g = [x; y; z] /\
  pydot.get_edges g
  = [pydot.mkEdge x op_node; pydot.mkEdge y op_node; pydot.mkEdge op_node z] /\
  length (pydot.get_nodes g) = 4%nat /\
  length (pydot.get_edges g) = 3%nat.
Proof.
  intros g label op_node value x y z.
  assert (Hop : op_node = ReallyGetOpNode embed_docstring (add_op doc) 0%Z OP_STYLE).
  { subst op_node label. destruct embed_docstring; reflexivity. }
  assert (Hname : pydot.get_name op_node = label).
  { subst op_node. destruct embed_docstring; reflexivity. }
  assert (Hbox : is_op_node op_node = true).
  { subst op_node. destruct embed_docstring; reflexivity. }
  assert (El : pydot.elements g
               = [pydot.ANode op_node;
                  pydot.ANode x; pydot.AnEdge (pydot.mkEdge x op_node);
                  pydot.ANode y; pydot.AnEdge (pydot.mkEdge y op_node);
                  pydot.ANode z; pydot.AnEdge (pydot.mkEdge op_node z)]).
  { subst g. rewrite Hop.
    exact (single_op_elements (ReallyGetOpNode embed_docstring) doc gname name rankdir). }
  split; [exact Hname|]. split; [exact El|].
  unfold op_nodes, value_nodes, pydot.get_nodes, pydot.get_edges. rewrite El.
  cbn [pydot.nodes_of pydot.edges_of flat_map app List.filter length].
  rewrite Hbox. cbn [negb]. repeat split.
Qed.

(** ** One operator node for each operator *)






(** ** Highlighted operators *)

Lemma has_style_made (embed_docstring : bool) (op : onnx.NodeProto) (i : Z) :
  has_style OP_STYLE_1 (ReallyGetOpNode embed_docstring op i OP_STYLE_1) = true /\
  has_style OP_STYLE (ReallyGetOpNode embed_docstring op i OP_STYLE_1) = false /\
  has_style OP_STYLE_1 (ReallyGetOpNode embed_docstring op i OP_STYLE) = false /\
  has_style OP_STYLE (ReallyGetOpNode embed_docstring op i OP_STYLE) = true.
Proof. destruct embed_docstring; repeat split; reflexivity. Qed.

Lemma comprehension_lift {A B : Type} (e : Exception) (f : A -> option B)
    (l : list A) (tr : list Event) :
  comprehension (fun x => lift e (f x)) l tr
  = (match mapM f l with Some ys => inr ys | None => inl e end, tr).
Proof.
  induction l as [|x l IH]; [reflexivity|].
  cbn [comprehension mapM]. unfold mbind, Run_bind, bind at 1.
  destruct (f x) as [y|]; cbn; [|reflexivity].
  unfold bind. rewrite IH. now destruct (mapM f l).
Qed.

(** The run of [main] when the highlight list, the reading and the parsing
    go through. *)
Lemma main_trace (ext : Externals) (args : Namespace) (ml : list Z)
    (content : list Byte.byte) (graph : onnx.GraphProto) :
  (if (args_marked args =? 0)%Z then Some []
   else mapM (int ext) (split UNDERSCORE (args_marked_list args))) = Some ml ->
  read_file ext (args_input args) = Some content ->
  ParseFromString ext content = Some graph ->
  let g :=
    GetPydotGraph graph (Some (onnx.graph_name graph)) (args_rankdir args)
      (Some (GetOpNodeProducer (args_embed_docstring args))) false ml in
  main ext args []
  = (if write_dot ext (args_output args) g then inr tt else inl OSError,
     [ReadFile (args_input args); ParseModel content;
      BuildGraph g; WriteDot (args_output args) g]).
Proof.
  intros Hml Hread Hparse g. unfold main, mbind, Run_bind, bind.
  destruct (args_marked args =? 0)%Z.
  - injection Hml as <-. cbn. rewrite Hread. cbn. rewrite Hparse. cbn.
    fold g. now destruct (write_dot ext (args_output args) g).
  - rewrite comprehension_lift, Hml. cbn. rewrite Hread. cbn. rewrite Hparse. cbn.
    fold g. now destruct (write_dot ext (args_output args) g).
Qed.

(** C4. An operator node gets the highlighted style [OP_STYLE_1] exactly
    when its index is in the highlight list, and the style [OP_STYLE]
    otherwise.  With [--marked 1 --marked_list 0_2] and a model of three
    operators, [main] builds the graph with the highlight list [0; 2]: the
    operator nodes of the indices 0 and 2 are made with [OP_STYLE_1], the
    one of the index 1 with [OP_STYLE]. *)
Theorem highlighted_iff_marked :
  (forall (graph : onnx.GraphProto) (name : option str) (rankdir : str)
          (embed_docstring : bool) (marked_list : list Z)
          (i : nat) (op : onnx.NodeProto),
      onnx.node graph !! i = Some op ->
      exists n,
        op_nodes (GetPydotGraph graph name rankdir None embed_docstring marked_list) !! i
        = Some n /\
        (In (Z.of_nat i) marked_list ->
         n = ReallyGetOpNode embed_docstring op (Z.of_nat i) OP_STYLE_1) /\
        (~ In (Z.of_nat i) marked_list ->
         n = ReallyGetOpNode embed_docstring op (Z.of_nat i) OP_STYLE) /\
        (has_style OP_STYLE_1 n = true <-> In (Z.of_nat i) marked_list) /\
        (has_style OP_STYLE n = true <-> ~ In (Z.of_nat i) marked_list)) /\
  (forall (ext : Externals) (args : Namespace) (content : list Byte.byte)
          (graph : onnx.GraphProto) (a b c : onnx.NodeProto),
      int ext (lit "0") = Some 0%Z ->
      int ext (lit "2") = Some 2%Z ->
      args_marked args = 1%Z ->
      args_marked_list args = lit "0_2" ->
      read_file ext (args_input args) = Some content ->
      ParseFromString ext content = Some graph ->
      onnx.node graph = [a; b; c] ->
      let e := args_embed_docstring args in
      let g :=
        GetPydotGraph graph (Some (onnx.graph_name graph)) (args_rankdir args)
          (Some (GetOpNodeProducer e)) false [0; 2]%Z in
      In (BuildGraph g) (snd (main ext args [])) /\
      op_nodes g
      = [ReallyGetOpNode e a 0%Z OP_STYLE_1;
         ReallyGetOpNode e b 1%Z OP_STYLE;
         ReallyGetOpNode e c 2%Z OP_STYLE_1]).
Proof.
  split.
  - intros graph name rankdir embed_docstring marked_list i op Hop.
    rewrite op_nodes_GetPydotGraph.
    pose proof (enumerate_from_lookup _ 0%Z _ _ Hop) as He.
    rewrite Z.add_0_l in He.
    eapply map_lookup in He. unfold enumerate. rewrite He. cbn [fst snd].
    eexists. split; [reflexivity|].
    unfold make_op_node.
    pose proof (in_list_In (Z.of_nat i) marked_list) as Hin.
    destruct (has_style_made embed_docstring op (Z.of_nat i)) as (S1 & S2 & S3 & S4).
    destruct (in_list (Z.of_nat i) marked_list).
    + assert (In (Z.of_nat i) marked_list) by now apply Hin.
      rewrite S1, S2. repeat split; try tauto; try discriminate.
    + assert (~ In (Z.of_nat i) marked_list).
      { intros H. apply Hin in H. discriminate H. }
      rewrite S3, S4. repeat split; try tauto; try discriminate.
  - intros ext args content graph a b c Hint0 Hint2 Hm Hl Hread Hparse Hops e g.
    split.
    + rewrite (main_trace ext args [0; 2]%Z content graph); try assumption.
      * cbn [snd]. right. right. now left.
      * rewrite Hm, Hl.
        replace (split UNDERSCORE (lit "0_2")) with [lit "0"; lit "2"]
          by (vm_compute; reflexivity).
        cbn [mapM]. rewrite Hint0, Hint2. reflexivity.
    + subst g.
      change (GetPydotGraph graph (Some (onnx.graph_name graph)) (args_rankdir args)
                (Some (GetOpNodeProducer e)) false [0; 2]%Z)
        with (GetPydotGraph graph (Some (onnx.graph_name graph)) (args_rankdir args)
                None e [0; 2]%Z).
      rewrite op_nodes_GetPydotGraph, Hops. reflexivity.
Qed.

Lemma highlighted_iff_marked_witness :
  In (BuildGraph
        (GetPydotGraph three_ops_graph (Some (lit "g")) (lit "LR")
           (Some (GetOpNodeProducer false)) false [0; 2]%Z))
     (snd (main sample_ext (sample_args (lit "0_2")) []))
  /\ exists n,
       op_nodes (GetPydotGraph three_ops_graph None (lit "LR") None false [0; 2]%Z)
         !! 1%nat = Some n
       /\ (has_style OP_STYLE n = true <-> ~ In 1%Z [0; 2]%Z).
Proof.
  split.
  - apply (proj2 highlighted_iff_marked sample_ext (sample_args (lit "0_2")) []
             three_ops_graph (add_op []) relu_op neg_op);
      reflexivity.
  - destruct (proj1 highlighted_iff_marked three_ops_graph None (lit "LR") false
                [0; 2]%Z 1%nat relu_op eq_refl) as (n & Hn & _ & _ & _ & Hs).
    exists n. split; [exact Hn|exact Hs].
Defined.

(** ** Escaped labels *)

(** C6, as the code has it.  For every name, [_escape_label] gives a text
    in double quotes, made of printable ASCII characters only, in which the
    first quote that no backslash escapes, after the opening one, is the
    last character: no quote of the name ends the label early.  Reading
    the escaped text back gives the name when the name is Unicode text,
    that is, holds no surrogate code point. *)
Theorem escape_label_safe (name : str) :
  (exists t,
      _escape_label name = QUOTE :: t ++ [QUOTE] /\
      reader.closing_quote (t ++ [QUOTE]) = Some (length t)) /\
  Forall (fun c => json.is_printable c = true) (_escape_label name) /\
  (Forall (fun c => is_scalar c = true) name ->
   reader.loads (_escape_label name) = Some name).
Proof.
  split; [|split].
  - exists (flat_map json.escape_char name). split; [reflexivity|].
    apply closing_quote_dumps_body.
  - apply dumps_printable.
  - intros H. unfold _escape_label, json.dumps, reader.loads.
    cbn [app]. change (QUOTE =? QUOTE) with true. cbv iota.
    now apply body_dumps_body.
Qed.

Lemma escape_label_safe_witness :
  In QUOTE awkward_name /\
  reader.loads (_escape_label awkward_name) = Some awkward_name.
Proof.
  split.
  - right. right. right. right. left. reflexivity.
  - apply (proj2 (proj2 (escape_label_safe awkward_name))).
    repeat constructor.
Defined.

(** C6, as the specification words it, fails on a text of the two
    surrogate code points [U+D83D] and [U+DE00]: it has the escaped form of
    the one character [U+1F600], so the name cannot be had back from the
    escaped form, and the reader gives the one character. *)
Lemma surrogates_not_recovered :
  [0xd83d; 0xde00] <> [0x1f600] /\
  _escape_label [0xd83d; 0xde00] = _escape_label [0x1f600] /\
  reader.loads (_escape_label [0xd83d; 0xde00]) = Some [0x1f600] /\
  reader.loads (_escape_label [0xd83d; 0xde00]) <> Some [0xd83d; 0xde00].
Proof. vm_compute. repeat split; discriminate. Qed.

(** ** The documentation of an operator *)

Lemma replace_absent (old : N) (new s : str) :
  ~ In old new -> ~ In old (replace old new s).
Proof.
  intros Hn. unfold replace. rewrite in_flat_map. intros (c & _ & Hc).
  revert Hc. destruct (N.eqb_spec c old) as [E|E]; intros Hc; [contradiction|].
  destruct Hc as [Hc|[]]. congruence.
Qed.

Lemma replace_keeps_absent (c old : N) (new s : str) :
  ~ In c new -> ~ In c s -> ~ In c (replace old new s).
Proof.
  intros Hn Hs. unfold replace. rewrite in_flat_map. intros (x & Hx & Hc).
  revert Hc. destruct (x =? old); intros Hc; [contradiction|].
  destruct Hc as [Hc|[]]. congruence.
Qed.

Lemma lookup_set_attr (key value : str) (attrs : list (str * str)) :
  pydot.lookup_attr key (pydot.set_attr key value attrs) = Some value.
Proof.
  induction attrs as [|[k v] r IH]; cbn [pydot.set_attr pydot.lookup_attr].
  - destruct (decide (key = key)); congruence.
  - destruct (decide (k = key)) as [E|E]; cbn [pydot.lookup_attr];
      destruct (decide (k = key)); congruence.
Qed.

Lemma sanitized_absent (c : N) (s : str) :
  c = QUOTE \/ c = LT \/ c = GT -> ~ In c (_form_and_sanitize_docstring s).
Proof.
  intros Hc. unfold _form_and_sanitize_docstring. cbv zeta.
  intros H. apply in_app_or in H as [H|H]; [apply in_app_or in H as [H|H]|].
  - revert H. destruct Hc as [-> | [-> | ->]]; vm_compute; intuition discriminate.
  - revert H. destruct Hc as [-> | [-> | ->]].
    + apply replace_keeps_absent; [intros []|].
      apply replace_keeps_absent; [intros []|].
      apply replace_absent. vm_compute. intuition discriminate.
    + apply replace_keeps_absent; [intros []|].
      apply replace_absent. intros [].
    + apply replace_absent. intros [].
  - revert H. destruct Hc as [-> | [-> | ->]]; vm_compute; intuition discriminate.
Qed.

(** C7, as the code has it.  With the documentation embedded, the [URL]
    attribute of the node of each operator is the action text made from
    the documentation of the operator: [javascript:alert(], then the
    escaped documentation in which every double quote is replaced by a
    single quote and the angle brackets are removed, then [)].  This text
    has no double quote and no angle bracket; it has single quotes. *)
Theorem docstring_action_text :
  (forall (graph : onnx.GraphProto) (name : option str) (rankdir : str)
          (marked_list : list Z) (i : nat) (op : onnx.NodeProto),
      onnx.node graph !! i = Some op ->
      exists n,
        op_nodes (GetPydotGraph graph name rankdir None true marked_list) !! i = Some n /\
        pydot.get (lit "URL") n
        = Some (_form_and_sanitize_docstring (onnx.doc_string op))) /\
  (forall s : str,
      _form_and_sanitize_docstring s
      = lit "javascript:alert("
        ++ replace GT [] (replace LT [] (replace QUOTE [APOSTROPHE] (_escape_label s)))
        ++ lit ")" /\
      ~ In QUOTE (_form_and_sanitize_docstring s) /\
      ~ In LT (_form_and_sanitize_docstring s) /\
      ~ In GT (_form_and_sanitize_docstring s) /\
      In APOSTROPHE (_form_and_sanitize_docstring s)).
Proof.
  split.
  - intros graph name rankdir marked_list i op Hop.
    rewrite op_nodes_GetPydotGraph.
    pose proof (enumerate_from_lookup _ 0%Z _ _ Hop) as He.
    eapply map_lookup in He. unfold enumerate. rewrite He.
    eexists. split; [reflexivity|]. cbn [fst snd].
    unfold make_op_node, ReallyGetOpNode.
    destruct (in_list (0 + Z.of_nat i) marked_list);
      unfold pydot.get, pydot.set_URL; cbn [pydot.get_attributes];
      apply lookup_set_attr.
  - intros s. split; [|split; [|split; [|split]]].
    + unfold _form_and_sanitize_docstring. cbv zeta. now rewrite <- app_assoc.
    + apply sanitized_absent. auto.
    + apply sanitized_absent. auto.
    + apply sanitized_absent. auto.
    + unfold _form_and_sanitize_docstring, _escape_label, json.dumps. cbv zeta.
      apply in_or_app. left. apply in_or_app. right.
      cbn [app replace flat_map].
      change (QUOTE =? QUOTE) with true. cbv iota.
      cbn [app flat_map].
      change (APOSTROPHE =? LT) with false. cbv iota.
      cbn [app flat_map].
      change (APOSTROPHE =? GT) with false. cbv iota.
      left. reflexivity.
Qed.

Lemma docstring_action_text_witness :
  exists n,
    op_nodes (GetPydotGraph three_ops_graph None (lit "LR") None true []) !! 1%nat
    = Some n /\
    pydot.get (lit "URL") n = Some (lit "javascript:alert('max(0, z)')").
Proof.
  destruct (proj1 docstring_action_text three_ops_graph None (lit "LR") []
              1%nat relu_op eq_refl) as (n & Hn & Hu).
  exists n. split; [exact Hn|]. rewrite Hu. vm_compute. reflexivity.
Defined.

(** C7, as the specification words it, fails on the empty documentation:
    the action text has quote characters, the two single quotes that stand
    for the double quotes of the escaped text, and it is not the escaped
    text with its quotes stripped. *)
Lemma docstring_action_text_has_quotes :
  _form_and_sanitize_docstring [] = lit "javascript:alert('')" /\
  existsb is_quote (_form_and_sanitize_docstring []) = true /\
  _form_and_sanitize_docstring []
  <> lit "javascript:alert(" ++ stripped (_escape_label []) ++ lit ")".
Proof. vm_compute. repeat split. discriminate. Qed.

(** ** A malformed highlight list *)

Lemma mapM_fails {A B : Type} (f : A -> option B) (l : list A) (t : A) :
  In t l -> f t = None -> mapM f l = None.
Proof.
  intros Hin Hf. induction l as [|x l IH]; [destruct Hin|].
  cbn [mapM]. destruct Hin as [->|Hin].
  - now rewrite Hf.
  - rewrite (IH Hin). now destruct (f x).
Qed.

(** C8. With the highlight feature on ([--marked] not [0]), when a token of
    [--marked_list] between underscores is no integer for [int], [main]
    ends with the exception of [int] before anything else happens: no file
    is read, no model is parsed, no graph is built or written.  The empty
    token, which [int] refuses, is such a token; the default empty
    [--marked_list] is one empty token. *)
Theorem malformed_marked_list_is_fatal (ext : Externals) (args : Namespace) :
  args_marked args <> 0%Z ->
  (forall t,
      In t (split UNDERSCORE (args_marked_list args)) ->
      int ext t = None ->
      main ext args [] = (inl ValueError, [])) /\
  (args_marked_list args = [] ->
   int ext [] = None ->
   main ext args [] = (inl ValueError, [])).
Proof.
  intros Hm.
  assert (G : forall t,
             In t (split UNDERSCORE (args_marked_list args)) ->
             int ext t = None ->
             main ext args [] = (inl ValueError, [])).
  { intros t Hin Ht. unfold main, mbind, Run_bind, bind.
    destruct (Z.eqb_spec (args_marked args) 0); [contradiction|].
    now rewrite comprehension_lift, (mapM_fails _ _ t Hin Ht). }
  split; [exact G|].
  intros He Hi. apply (G []); [|exact Hi]. rewrite He. now left.
Qed.

Lemma malformed_marked_list_is_fatal_witness :
  main sample_ext (sample_args (lit "0__2")) [] = (inl ValueError, []) /\
  main sample_ext (sample_args (lit "0_x")) [] = (inl ValueError, []) /\
  main sample_ext (sample_args []) [] = (inl ValueError, []).
Proof.
  split; [|split].
  - apply (proj1 (malformed_marked_list_is_fatal sample_ext (sample_args (lit "0__2"))
                    ltac:(discriminate)) []).
    + right. left. reflexivity.
    + reflexivity.
  - apply (proj1 (malformed_marked_list_is_fatal sample_ext (sample_args (lit "0_x"))
                    ltac:(discriminate)) (lit "x")).
    + right. left. reflexivity.
    + reflexivity.
  - apply (proj2 (malformed_marked_list_is_fatal sample_ext (sample_args [])
                    ltac:(discriminate))); reflexivity.
Defined.

(** ** Identities of value nodes *)

(** C10, as the code has it.  The identity of a value node is the escaped
    text of the name followed by the decimal counter, so two names can
    share an identity: the name [z] at the occurrence 10 and the name [z1]
    at the occurrence 0 both have the identity of [z10], with different
    labels.  After eleven writes of [z] and one read of [z1] the graph has
    both value nodes, under one name. *)
Theorem value_identities_collide :
  lit "z" <> lit "z1" /\
  pydot.get_name (blob_node (lit "z") 10) = _escape_label (lit "z10") /\
  pydot.get_name (blob_node (lit "z1") 0) = _escape_label (lit "z10") /\
  pydot.get (lit "label") (blob_node (lit "z") 10)
  <> pydot.get (lit "label") (blob_node (lit "z1") 0) /\
  (let g := GetPydotGraph colliding_graph None (lit "LR") None false [] in
   pydot.get_nodes g !! 21%nat = Some (blob_node (lit "z") 10) /\
   pydot.get_nodes g !! 23%nat = Some (blob_node (lit "z1") 0)).
Proof. vm_compute. repeat split; discriminate. Qed.

(** C10, the example of the specification, does not collide: the name [z10] at
    the occurrence 0 has the identity of [z100], not the one of [z] at the
    occurrence 10. *)
Lemma value_identities_example_differs :
  lit "z10" ++ str_int 0 = lit "z100" /\
  lit "z" ++ str_int 10 = lit "z10" /\
  pydot.get_name (blob_node (lit "z10") 0) <> pydot.get_name (blob_node (lit "z") 10).
Proof. vm_compute. repeat split. discriminate. Qed.

(** * Further properties of the file *)

(** ** How much [GetPydotGraph] adds *)

Section Sizes.

Import pydot.

Variable node_producer : NodeProducer.
Variable marked_list : list Z.

Lemma nodes_of_app (l1 l2 : list Element) :
  nodes_of (l1 ++ l2) = nodes_of l1 ++ nodes_of l2.
Proof. apply flat_map_app. Qed.

Lemma edges_of_app (l1 l2 : list Element) :
  edges_of (l1 ++ l2) = edges_of l1 ++ edges_of l2.
Proof. apply flat_map_app. Qed.

Lemma input_body_sizes (op_node : Node) (st : Locals) (x : str) :
  length (get_nodes (pydot_graph (input_body op_node st x)))
  = S (length (get_nodes (pydot_graph st))) /\
  length (get_edges (pydot_graph (input_body op_node st x)))
  = S (length (get_edges (pydot_graph st))).
Proof.
  destruct (input_body_elements op_node st x) as [n E].
  unfold get_nodes, get_edges. rewrite E.
  rewrite !nodes_of_app, !edges_of_app, !length_app. cbn. split; lia.
Qed.

Lemma output_body_sizes (op_node : Node) (st : Locals) (x : str) :
  length (get_nodes (pydot_graph (output_body op_node st x)))
  = S (length (get_nodes (pydot_graph st))) /\
  length (get_edges (pydot_graph (output_body op_node st x)))
  = S (length (get_edges (pydot_graph st))).
Proof.
  destruct (output_body_elements op_node st x) as [n E].
  unfold get_nodes, get_edges. rewrite E.
  rewrite !nodes_of_app, !edges_of_app, !length_app. cbn. split; lia.
Qed.

Lemma loop_sizes (body : Locals -> str -> Locals) (l : list str) (st : Locals) :
  (forall s x,
      length (get_nodes (pydot_graph (body s x)))
      = S (length (get_nodes (pydot_graph s))) /\
      length (get_edges (pydot_graph (body s x)))
      = S (length (get_edges (pydot_graph s)))) ->
  length (get_nodes (pydot_graph (fold_left body l st)))
  = (length (get_nodes (pydot_graph st)) + length l)%nat /\
  length (get_edges (pydot_graph (fold_left body l st)))
  = (length (get_edges (pydot_graph st)) + length l)%nat.
Proof.
  intros H. revert st. induction l as [|x l IH]; intros st; cbn [fold_left length].
  - split; lia.
  - destruct (IH (body st x)) as [N E]. destruct (H st x) as [N1 E1]. split; lia.
Qed.

Lemma op_body_sizes (st : Locals) (i : Z) (op : onnx.NodeProto) :
  length (get_nodes (pydot_graph (op_body node_producer marked_list st (i, op))))
  = (length (get_nodes (pydot_graph st))
     + 1 + length (onnx.input op) + length (onnx.output op))%nat /\
  length (get_edges (pydot_graph (op_body node_producer marked_list st (i, op))))
  = (length (get_edges (pydot_graph st))
     + length (onnx.input op) + length (onnx.output op))%nat.
Proof.
  rewrite op_body_unfold. cbv zeta.
  set (n := make_op_node node_producer marked_list i op).
  set (st0 := {| pydot_graph := add_node (pydot_graph st) n;
                 pydot_nodes := pydot_nodes st;
                 pydot_node_counts := pydot_node_counts st |}).
  destruct (loop_sizes (output_body n) (onnx.output op)
              (fold_left (input_body n) (onnx.input op) st0)
              (output_body_sizes n)) as [N2 E2].
  destruct (loop_sizes (input_body n) (onnx.input op) st0 (input_body_sizes n))
    as [N1 E1].
  assert (N0 : length (get_nodes (pydot_graph st0))
               = S (length (get_nodes (pydot_graph st)))).
  { subst st0. unfold get_nodes. cbn [pydot_graph add_node elements].
    rewrite nodes_of_app, length_app. cbn. lia. }
  assert (E0 : length (get_edges (pydot_graph st0))
               = length (get_edges (pydot_graph st))).
  { subst st0. unfold get_edges. cbn [pydot_graph add_node elements].
    rewrite edges_of_app, length_app. cbn. lia. }
  split; lia.
Qed.

Lemma list_sum_step (a : nat) (l : list nat) :
  list_sum (a :: l) = (a + list_sum l)%nat.
Proof. reflexivity. Qed.

Lemma run_from_sizes (ops : list onnx.NodeProto) (st : Locals) (i : Z) :
  length (get_nodes (pydot_graph (run_from node_producer marked_list st i ops)))
  = (length (get_nodes (pydot_graph st))
     + length ops + total_inputs ops + total_outputs ops)%nat /\
  length (get_edges (pydot_graph (run_from node_producer marked_list st i ops)))
  = (length (get_edges (pydot_graph st)) + total_inputs ops + total_outputs ops)%nat.
Proof.
  unfold run_from, total_inputs, total_outputs. revert st i.
  induction ops as [|op ops IH]; intros st i;
    cbn [enumerate_from fold_left map length].
  - cbn. split; lia.
  - rewrite !list_sum_step.
    destruct (IH (op_body node_producer marked_list st (i, op)) (i + 1)%Z) as [N E].
    destruct (op_body_sizes st i op) as [N1 E1]. split; lia.
Qed.

End Sizes.

(** X1. Whatever the operators, the node producer and the highlight list,
    [GetPydotGraph] adds one node for each operator and one node and one
    edge for each input name and for each output name of each operator (a
    name that already has a value node is added again): the numbers of
    nodes and of edges of the result are these sums.  The name and the
    [rankdir] of the result are the ones given. *)
Theorem graph_sizes
    (graph : onnx.GraphProto) (name : option str) (rankdir : str)
    (node_producer : option NodeProducer) (embed_docstring : bool)
    (marked_list : list Z) :
  let g := GetPydotGraph graph name rankdir node_producer embed_docstring marked_list in
  let ops := onnx.node graph in
  length (pydot.get_nodes g)
  = (length ops + total_inputs ops + total_outputs ops)%nat /\
  length (pydot.get_edges g) = (total_inputs ops + total_outputs ops)%nat /\
  pydot.graph_name g = name /\
  pydot.rankdir g = rankdir.
Proof.
  intros g ops. subst g ops. unfold GetPydotGraph. rewrite run_ops_run_from.
  match goal with
  | |- context [run_from ?np _ _ _ _] =>
      destruct (run_from_sizes np marked_list (onnx.node graph)
                  (initial_locals name rankdir) 0%Z) as [N E]
  end.
  split; [exact N|]. split; [exact E|].
  unfold run_from.
  apply (fold_left_keeps
           (fun s => pydot.graph_name (pydot_graph s) = name /\
                     pydot.rankdir (pydot_graph s) = rankdir)).
  - intros a [i op] [Hn Hr]. rewrite op_body_unfold. cbv zeta.
    apply (fold_left_keeps
             (fun s => pydot.graph_name (pydot_graph s) = name /\
                       pydot.rankdir (pydot_graph s) = rankdir)).
    { intros s x [H1 H2]. unfold output_body.
      destruct (defaultdict_get _ x). cbn. auto. }
    apply (fold_left_keeps
             (fun s => pydot.graph_name (pydot_graph s) = name /\
                       pydot.rankdir (pydot_graph s) = rankdir)).
    { intros s x [H1 H2]. unfold input_body.
      destruct (pydot_nodes s !! x); [cbn; auto|].
      destruct (defaultdict_get _ x). cbn. auto. }
    cbn. auto.
  - cbn. auto.
Qed.

(** ** The generations of a value *)

Section Generations.

Import pydot.

Variable node_producer : NodeProducer.
Variable marked_list : list Z.

Lemma occurrences_cons (o x : str) (l : list str) :
  occurrences o (x :: l)
  = ((if decide (x = o) then 1 else 0) + occurrences o l)%nat.
Proof.
  unfold occurrences. cbn [List.filter].
  destruct (decide (x = o)) as [E|E].
  - now rewrite bool_decide_eq_true_2.
  - now rewrite bool_decide_eq_false_2.
Qed.

Lemma occurrences_absent (o : str) (l : list str) :
  ~ In o l -> occurrences o l = 0%nat.
Proof.
  induction l as [|x l IH]; intros H; [reflexivity|].
  rewrite occurrences_cons, IH by (intros ?; apply H; now right).
  destruct (decide (x = o)) as [->|]; [|reflexivity].
  exfalso. apply H. now left.
Qed.

Lemma writes_absent (o : str) (ops : list onnx.NodeProto) :
  (forall op, In op ops -> ~ In o (onnx.output op)) -> writes o ops = 0%nat.
Proof.
  unfold writes. induction ops as [|op ops IH]; intros H; [reflexivity|].
  cbn [map]. rewrite list_sum_step, IH by (intros ? ?; apply H; now right).
  rewrite occurrences_absent; [reflexivity|]. apply H. now left.
Qed.

(** A read keeps the value node that a name has, and the counters. *)
Lemma input_body_keeps (op_node : Node) (st : Locals) (x o : str) (n : Node) :
  nodes_current st ->
  pydot_nodes st !! o = Some n ->
  pydot_nodes (input_body op_node st x) !! o = Some n.
Proof.
  intros Inv Ho. destruct (input_body_spec op_node st x Inv) as (_ & N & _).
  rewrite N. destruct (decide (x = o)) as [->|Hne].
  - rewrite lookup_insert_eq. f_equal. symmetry. now apply Inv.
  - now rewrite lookup_insert_ne.
Qed.

Lemma inputs_loop_counts (op_node : Node) (l : list str) (st : Locals) (k : str) :
  nodes_current st ->
  count_of (fold_left (input_body op_node) l st) k = count_of st k.
Proof.
  revert st. induction l as [|x l IH]; intros st Inv; cbn [fold_left]; [reflexivity|].
  rewrite IH by now apply input_body_current.
  now destruct (input_body_spec op_node st x Inv) as (C & _).
Qed.

Lemma inputs_loop_keeps (op_node : Node) (l : list str) (st : Locals)
    (o : str) (n : Node) :
  nodes_current st ->
  pydot_nodes st !! o = Some n ->
  pydot_nodes (fold_left (input_body op_node) l st) !! o = Some n.
Proof.
  revert st. induction l as [|x l IH]; intros st Inv Ho; cbn [fold_left]; [exact Ho|].
  apply IH; [now apply input_body_current|now apply input_body_keeps].
Qed.

(** A read of [o] leaves the value node of the current occurrence of [o]
    under [o], with an edge from it to the operator node. *)
Lemma inputs_loop_reads (op_node : Node) (l : list str) (st : Locals) (o : str) :
  nodes_current st ->
  In o l ->
  pydot_nodes (fold_left (input_body op_node) l st) !! o
  = Some (blob_node o (count_of st o)) /\
  In (AnEdge (mkEdge (blob_node o (count_of st o)) op_node))
     (elements (pydot_graph (fold_left (input_body op_node) l st))).
Proof.
  revert st. induction l as [|x l IH]; intros st Inv Hin; [destruct Hin|].
  cbn [fold_left].
  destruct (input_body_spec op_node st x Inv) as (C & N & E).
  pose proof (input_body_current op_node st x Inv) as Inv'.
  destruct (decide (x = o)) as [->|Hne].
  - assert (Ho : pydot_nodes (input_body op_node st o) !! o
                 = Some (blob_node o (count_of st o))).
    { rewrite N. apply lookup_insert_eq. }
    split.
    + now apply inputs_loop_keeps.
    + destruct (inputs_loop op_node l _ Inv') as [_ ([more Em] & _)].
      rewrite Em, E. apply in_or_app. left. apply in_or_app. right. right. now left.
  - destruct Hin as [Hin|Hin]; [congruence|].
    destruct (IH _ Inv' Hin) as [H1 H2]. rewrite C in H1, H2. now split.
Qed.

(** A write of another name keeps the value node and the counter of [o];
    a write of [o], once [o] has a value node, moves its counter by one. *)
Lemma outputs_loop_counts (op_node : Node) (l : list str) (st : Locals) (o : str) :
  is_Some (pydot_nodes st !! o) ->
  count_of (fold_left (output_body op_node) l st) o
  = (count_of st o + Z.of_nat (occurrences o l))%Z /\
  is_Some (pydot_nodes (fold_left (output_body op_node) l st) !! o).
Proof.
  revert st. induction l as [|x l IH]; intros st Ho; cbn [fold_left].
  - split; [cbn; lia|exact Ho].
  - destruct (output_body_spec op_node st x) as (C & _ & _).
    destruct (output_body_grows op_node st x) as (_ & P & _).
    destruct (IH _ (P o Ho)) as [H1 H2]. split; [|exact H2].
    rewrite H1, C, occurrences_cons.
    destruct (decide (o = x)) as [->|Hne].
    + destruct (decide (x = x)); [|congruence].
      unfold next_count. destruct Ho as [m ->]. lia.
    + destruct (decide (x = o)); [congruence|]. lia.
Qed.

Lemma op_body_counts (st : Locals) (i : Z) (op : onnx.NodeProto) (o : str) :
  nodes_current st ->
  is_Some (pydot_nodes st !! o) ->
  count_of (op_body node_producer marked_list st (i, op)) o
  = (count_of st o + Z.of_nat (occurrences o (onnx.output op)))%Z /\
  is_Some (pydot_nodes (op_body node_producer marked_list st (i, op)) !! o).
Proof.
  intros Inv Ho. rewrite op_body_unfold. cbv zeta.
  set (n := make_op_node node_producer marked_list i op).
  destruct (add_op_node_step st n Inv) as [I0 (_ & P0 & _)].
  destruct (inputs_loop n (onnx.input op) _ I0) as [I1 (_ & P1 & _)].
  destruct (outputs_loop_counts n (onnx.output op) _ o (P1 o (P0 o Ho))) as [H1 H2].
  split; [|exact H2].
  rewrite H1, inputs_loop_counts by exact I0. reflexivity.
Qed.

Lemma run_from_counts (ops : list onnx.NodeProto) (st : Locals) (i : Z) (o : str) :
  nodes_current st ->
  is_Some (pydot_nodes st !! o) ->
  count_of (run_from node_producer marked_list st i ops) o
  = (count_of st o + Z.of_nat (writes o ops))%Z.
Proof.
  unfold run_from, writes. revert st i.
  induction ops as [|op ops IH]; intros st i Inv Ho; cbn [enumerate_from fold_left map].
  - cbn. lia.
  - destruct (op_body_counts st i op o Inv Ho) as [H1 H2].
    destruct (op_body_loop node_producer marked_list st i op Inv) as [I _].
    rewrite (IH _ (i + 1)%Z I H2), H1, list_sum_step. lia.
Qed.

(** A name that an operator reads or writes has a value node afterwards. *)
Lemma op_body_mentions (st : Locals) (i : Z) (op : onnx.NodeProto) (o : str) :
  nodes_current st ->
  In o (onnx.input op) \/ In o (onnx.output op) ->
  is_Some (pydot_nodes (op_body node_producer marked_list st (i, op)) !! o).
Proof.
  intros Inv [Hin|Hout].
  - rewrite op_body_unfold. cbv zeta.
    set (n := make_op_node node_producer marked_list i op).
    destruct (add_op_node_step st n Inv) as [I0 _].
    destruct (inputs_loop n (onnx.input op) _ I0) as [I1 _].
    destruct (inputs_loop_reads n (onnx.input op) _ o I0 Hin) as [H _].
    destruct (outputs_loop n (onnx.output op) _ I1) as [_ (_ & P & _)].
    apply P. eauto.
  - destruct (op_body_writes node_producer marked_list st i op o Inv Hout)
      as (m & Hm & _).
    eauto.
Qed.

Lemma run_from_mentions (ops : list onnx.NodeProto) (st : Locals) (i : Z)
    (op : onnx.NodeProto) (o : str) :
  nodes_current st ->
  In op ops ->
  In o (onnx.input op) \/ In o (onnx.output op) ->
  is_Some (pydot_nodes (run_from node_producer marked_list st i ops) !! o).
Proof.
  intros Inv Hop Ho. apply in_split in Hop as (l1 & l2 & ->).
  change (l1 ++ op :: l2) with (l1 ++ [op] ++ l2).
  rewrite !run_from_app, run_from_one.
  destruct (run_from_loop node_producer marked_list l1 st i Inv) as [I1 _].
  pose proof (op_body_mentions _ (i + Z.of_nat (length l1))%Z op o I1 Ho) as H.
  destruct (op_body_loop node_producer marked_list _ (i + Z.of_nat (length l1))%Z op I1)
    as [I2 _].
  destruct (run_from_loop node_producer marked_list l2 _
              (i + Z.of_nat (length l1) + Z.of_nat (length [op]))%Z I2)
    as [_ (_ & P & _)].
  now apply P.
Qed.

End Generations.

(** X2. Once a name has a value node (an operator has read or written it),
    its occurrence counter moves only by writes, by one for each: after
    more operators the counter is the former counter plus the number of
    times these operators write the name, and the value node under the name
    is the one of that occurrence.  So operators that do not write the name
    leave its value node as it is. *)
Theorem counter_counts_writes
    (np : NodeProducer) (ml : list Z) (name : option str) (rankdir : str)
    (pre rest : list onnx.NodeProto) (op : onnx.NodeProto) (o : str) :
  In op pre ->
  In o (onnx.input op) \/ In o (onnx.output op) ->
  let s1 := run_ops np ml name rankdir pre in
  let s2 := run_ops np ml name rankdir (pre ++ rest) in
  count_of s2 o = (count_of s1 o + Z.of_nat (writes o rest))%Z /\
  pydot_nodes s1 !! o = Some (blob_node o (count_of s1 o)) /\
  pydot_nodes s2 !! o = Some (blob_node o (count_of s2 o)) /\
  ((forall op', In op' rest -> ~ In o (onnx.output op')) ->
   pydot_nodes s2 !! o = pydot_nodes s1 !! o).
Proof.
  intros Hop Ho s1 s2.
  assert (E2 : s2 = run_from np ml s1 (0 + Z.of_nat (length pre))%Z rest).
  { subst s1 s2. now rewrite !run_ops_run_from, run_from_app. }
  destruct (run_from_loop np ml pre _ 0%Z (initial_current name rankdir)) as [I1 _].
  rewrite <- run_ops_run_from in I1. fold s1 in I1.
  assert (P1 : is_Some (pydot_nodes s1 !! o)).
  { subst s1. rewrite run_ops_run_from.
    eapply run_from_mentions; eauto using initial_current. }
  destruct (run_from_loop np ml rest s1 (0 + Z.of_nat (length pre))%Z I1)
    as [I2 (_ & P & _)].
  rewrite <- E2 in I2, P.
  assert (C : count_of s2 o = (count_of s1 o + Z.of_nat (writes o rest))%Z).
  { rewrite E2. now apply run_from_counts. }
  assert (N1 : pydot_nodes s1 !! o = Some (blob_node o (count_of s1 o))).
  { destruct P1 as [m Hm]. rewrite Hm. f_equal. now apply I1. }
  assert (N2 : pydot_nodes s2 !! o = Some (blob_node o (count_of s2 o))).
  { destruct (P o P1) as [m Hm]. rewrite Hm. f_equal. now apply I2. }
  repeat split; try assumption.
  intros Hw. rewrite N2, N1, C, (writes_absent o rest Hw). do 2 f_equal. cbn. lia.
Qed.

Lemma counter_counts_writes_witness :
  count_of (run_ops (ReallyGetOpNode false) [] None (lit "LR")
              ([add_op []] ++ [relu_op; neg_op; relu_op])) (lit "z")
  = (count_of (run_ops (ReallyGetOpNode false) [] None (lit "LR") [add_op []])
       (lit "z") + 2)%Z.
Proof.
  apply (counter_counts_writes (ReallyGetOpNode false) [] None (lit "LR")
           [add_op []] [relu_op; neg_op; relu_op] (add_op []) (lit "z")).
  - left. reflexivity.
  - right. left. reflexivity.
Defined.

(** X3. When an operator [A] writes a name, the operators after it do not
    write the name, and then an operator [B] reads it, the edge into the
    node of [B] comes from the very value node that [A] wrote: the graph
    has the edge from the node of [A] to that value node and the edge from
    that value node to the node of [B]. *)
Theorem read_wired_to_last_write
    (np : NodeProducer) (ml : list Z) (name : option str) (rankdir : str)
    (pre : list onnx.NodeProto) (A : onnx.NodeProto)
    (mid : list onnx.NodeProto) (B : onnx.NodeProto) (o : str) :
  In o (onnx.output A) ->
  (forall op, In op mid -> ~ In o (onnx.output op)) ->
  In o (onnx.input B) ->
  let s1 := run_ops np ml name rankdir (pre ++ [A]) in
  let s2 := run_ops np ml name rankdir (pre ++ [A] ++ mid ++ [B]) in
  let opA := make_op_node np ml (Z.of_nat (length pre)) A in
  let opB :=
    make_op_node np ml (Z.of_nat (length pre) + 1 + Z.of_nat (length mid))%Z B in
  exists n,
    pydot_nodes s1 !! o = Some n /\
    n = blob_node o (count_of s1 o) /\
    In (pydot.AnEdge (pydot.mkEdge opA n)) (pydot.elements (pydot_graph s2)) /\
    In (pydot.AnEdge (pydot.mkEdge n opB)) (pydot.elements (pydot_graph s2)).
Proof.
  intros HA Hmid HB s1 s2 opA opB.
  set (st0 := run_from np ml (initial_locals name rankdir) 0%Z pre).
  assert (E1 : s1 = op_body np ml st0 (Z.of_nat (length pre), A)).
  { subst s1 st0. now rewrite run_ops_run_from, run_from_app, run_from_one. }
  set (i1 := (Z.of_nat (length pre) + 1)%Z).
  set (st2 := run_from np ml s1 i1 mid).
  assert (E2 : s2 = op_body np ml st2 (i1 + Z.of_nat (length mid), B)%Z).
  { subst s2 st2 i1. rewrite run_ops_run_from.
    change (pre ++ [A] ++ mid ++ [B]) with (pre ++ [A] ++ (mid ++ [B])).
    rewrite app_assoc, run_from_app, <- run_ops_run_from. fold s1.
    rewrite length_app, run_from_app, run_from_one. cbn [length].
    now replace (0 + Z.of_nat (length pre + 1))%Z
      with (Z.of_nat (length pre) + 1)%Z by lia. }
  destruct (run_from_loop np ml pre _ 0%Z (initial_current name rankdir)) as [I0 _].
  fold st0 in I0.
  destruct (op_body_loop np ml st0 (Z.of_nat (length pre)) A I0) as [I1 _].
  rewrite <- E1 in I1.
  destruct (op_body_writes np ml st0 (Z.of_nat (length pre)) A o I0 HA)
    as (n & Hn & He & _).
  rewrite <- E1 in Hn, He. fold opA in He.
  pose proof (I1 _ _ Hn) as Bn.
  destruct (run_from_loop np ml mid s1 i1 I1) as [I2 ([m2 Em2] & P2 & _)].
  fold st2 in I2, Em2, P2.
  assert (C2 : count_of st2 o = count_of s1 o).
  { subst st2. rewrite run_from_counts by eauto.
    rewrite (writes_absent o mid Hmid). cbn. lia. }
  exists n. split; [exact Hn|]. split; [exact Bn|].
  rewrite E2, op_body_unfold. cbv zeta.
  change (make_op_node np ml (i1 + Z.of_nat (length mid)) B) with opB.
  destruct (add_op_node_step st2 opB I2) as [I3 ([m3 Em3] & _)].
  set (st3 := {| pydot_graph := pydot.add_node (pydot_graph st2) opB;
                 pydot_nodes := pydot_nodes st2;
                 pydot_node_counts := pydot_node_counts st2 |}) in *.
  destruct (inputs_loop_reads opB (onnx.input B) st3 o I3 HB) as [_ Hr].
  change (count_of st3 o) with (count_of st2 o) in Hr.
  rewrite C2, <- Bn in Hr.
  destruct (inputs_loop opB (onnx.input B) st3 I3) as [I4 ([m4 Em4] & _)].
  destruct (outputs_loop opB (onnx.output B) _ I4) as [_ ([m5 Em5] & _)].
  split.
  - rewrite Em5, Em4, Em3, Em2. repeat (apply in_or_app; left). exact He.
  - rewrite Em5. apply in_or_app. now left.
Qed.

Lemma read_wired_to_last_write_witness :
  exists n,
    pydot_nodes (run_ops (ReallyGetOpNode false) [] None (lit "LR") [add_op []])
      !! lit "z" = Some n /\
    In (pydot.AnEdge
          (pydot.mkEdge n (make_op_node (ReallyGetOpNode false) [] 2%Z relu_op)))
       (pydot.elements
          (pydot_graph (run_ops (ReallyGetOpNode false) [] None (lit "LR")
                          [add_op []; neg_op; relu_op]))).
Proof.
  destruct (read_wired_to_last_write (ReallyGetOpNode false) [] None (lit "LR")
              [] (add_op []) [neg_op] relu_op (lit "z"))
    as (n & Hn & _ & _ & He).
  - left. reflexivity.
  - intros op [<-|[]] [H|[]]. discriminate H.
  - left. reflexivity.
  - exists n. split; [exact Hn|exact He].
Defined.

(** ** What the highlight list and the styles change *)

Section Highlight.

Variable node_producer : NodeProducer.

Lemma op_body_marked (ml1 ml2 : list Z) (st : Locals) (i : Z) (op : onnx.NodeProto) :
  in_list i ml1 = in_list i ml2 ->
  op_body node_producer ml1 st (i, op) = op_body node_producer ml2 st (i, op).
Proof. intros H. unfold op_body, make_op_node. now rewrite H. Qed.

Lemma run_from_marked (ml1 ml2 : list Z) (ops : list onnx.NodeProto)
    (st : Locals) (i : Z) :
  (forall j, (i <= j < i + Z.of_nat (length ops))%Z -> in_list j ml1 = in_list j ml2) ->
  run_from node_producer ml1 st i ops = run_from node_producer ml2 st i ops.
Proof.
  unfold run_from. revert st i.
  induction ops as [|op ops IH]; intros st i H; cbn [enumerate_from fold_left];
    [reflexivity|].
  rewrite (op_body_marked ml1 ml2) by (apply H; cbn [length]; lia).
  apply IH. intros j Hj. apply H. cbn [length]. lia.
Qed.

End Highlight.

Lemma in_list_iff (i : Z) (l1 l2 : list Z) :
  (In i l1 <-> In i l2) -> in_list i l1 = in_list i l2.
Proof.
  intros H. pose proof (in_list_In i l1) as H1. pose proof (in_list_In i l2) as H2.
  destruct (in_list i l1), (in_list i l2); try reflexivity.
  - symmetry. apply H2, H, H1. reflexivity.
  - apply H1, H, H2. reflexivity.
Qed.

(** X4. The highlight list matters only through which indices of operators
    it holds: two lists that hold the same indices among [0 .. n-1], for
    the [n] operators of the graph, give the same graph.  The order of the
    list, repetitions in it, negative numbers and numbers from [n] on
    change nothing. *)
Theorem marked_list_by_membership
    (graph : onnx.GraphProto) (name : option str) (rankdir : str)
    (node_producer : option NodeProducer) (embed_docstring : bool)
    (ml1 ml2 : list Z) :
  (forall i : nat,
      (i < length (onnx.node graph))%nat ->
      (In (Z.of_nat i) ml1 <-> In (Z.of_nat i) ml2)) ->
  GetPydotGraph graph name rankdir node_producer embed_docstring ml1
  = GetPydotGraph graph name rankdir node_producer embed_docstring ml2.
Proof.
  intros H. unfold GetPydotGraph. rewrite !run_ops_run_from. f_equal.
  apply run_from_marked. intros j Hj. apply in_list_iff.
  specialize (H (Z.to_nat j)). rewrite Z2Nat.id in H by lia. apply H. lia.
Qed.

Lemma marked_list_by_membership_witness :
  GetPydotGraph three_ops_graph None (lit "LR") None false [0; 2]%Z
  = GetPydotGraph three_ops_graph None (lit "LR") None false [2; 7; 0; -1; 2]%Z.
Proof.
  apply (marked_list_by_membership three_ops_graph None (lit "LR") None false
           [0; 2]%Z [2; 7; 0; -1; 2]%Z).
  intros i Hi. rewrite <- !in_list_In.
  destruct i as [|[|[|i]]]; [reflexivity..|].
  exfalso. cbn in Hi. lia.
Defined.

Section SameDrawing.

Import pydot.

Variable np1 np2 : NodeProducer.
Variable ml1 ml2 : list Z.
Hypothesis same_names :
  forall i op, get_name (make_op_node np1 ml1 i op) = get_name (make_op_node np2 ml2 i op).
Hypothesis boxes1 : forall i op, is_op_node (make_op_node np1 ml1 i op) = true.
Hypothesis boxes2 : forall i op, is_op_node (make_op_node np2 ml2 i op) = true.

Lemma same_drawing_value (g1 g2 : Dot) (n : Node) (e : Edge) :
  get_edges g1 = get_edges g2 ->
  map get_name (get_nodes g1) = map get_name (get_nodes g2) ->
  value_nodes g1 = value_nodes g2 ->
  get_edges (add_edge (add_node g1 n) e) = get_edges (add_edge (add_node g2 n) e) /\
  map get_name (get_nodes (add_edge (add_node g1 n) e))
  = map get_name (get_nodes (add_edge (add_node g2 n) e)) /\
  value_nodes (add_edge (add_node g1 n) e) = value_nodes (add_edge (add_node g2 n) e).
Proof.
  intros E M V.
  unfold value_nodes, get_edges, get_nodes in *. cbn [add_edge add_node elements].
  rewrite !edges_of_app, !nodes_of_app, !List.filter_app, !map_app, E, M, V.
  repeat split.
Qed.

Lemma input_body_same (a b : Node) (st1 st2 : Locals) (x : str) :
  get_name a = get_name b ->
  same_drawing st1 st2 ->
  same_drawing (input_body a st1 x) (input_body b st2 x).
Proof.
  intros Hab (N & C & E & M & V).
  unfold input_body. rewrite N, C.
  assert (He : forall n, mkEdge n a = mkEdge n b).
  { intros n. unfold mkEdge. now rewrite Hab. }
  destruct (pydot_nodes st2 !! x) as [m|].
  - destruct (same_drawing_value _ _ m (mkEdge m b) E M V) as (K1 & K2 & K3).
    rewrite He. repeat split; cbn; assumption.
  - destruct (defaultdict_get (pydot_node_counts st2) x) as [c d].
    destruct (same_drawing_value _ _ (blob_node x c) (mkEdge (blob_node x c) b) E M V)
      as (K1 & K2 & K3).
    rewrite He. repeat split; cbn; assumption.
Qed.

Lemma output_body_same (a b : Node) (st1 st2 : Locals) (x : str) :
  get_name a = get_name b ->
  same_drawing st1 st2 ->
  same_drawing (output_body a st1 x) (output_body b st2 x).
Proof.
  intros Hab (N & C & E & M & V).
  unfold output_body. rewrite N, C.
  destruct (defaultdict_get _ x) as [c d].
  assert (He : mkEdge a (blob_node x c) = mkEdge b (blob_node x c)).
  { unfold mkEdge. now rewrite Hab. }
  destruct (same_drawing_value _ _ (blob_node x c) (mkEdge b (blob_node x c)) E M V)
    as (K1 & K2 & K3).
  rewrite He. repeat split; cbn; assumption.
Qed.

Lemma fold_same (f1 f2 : Locals -> str -> Locals) (l : list str) (st1 st2 : Locals) :
  (forall s1 s2 x, same_drawing s1 s2 -> same_drawing (f1 s1 x) (f2 s2 x)) ->
  same_drawing st1 st2 ->
  same_drawing (fold_left f1 l st1) (fold_left f2 l st2).
Proof.
  intros H. revert st1 st2. induction l as [|x l IH]; intros st1 st2 S; cbn; auto.
Qed.

Lemma op_body_same (st1 st2 : Locals) (i : Z) (op : onnx.NodeProto) :
  same_drawing st1 st2 ->
  same_drawing (op_body np1 ml1 st1 (i, op)) (op_body np2 ml2 st2 (i, op)).
Proof.
  intros (N & C & E & M & V). rewrite !op_body_unfold. cbv zeta.
  apply fold_same; [intros; now apply output_body_same|].
  apply fold_same; [intros; now apply input_body_same|].
  unfold same_drawing, value_nodes, get_edges, get_nodes in *.
  cbn [pydot_graph pydot_nodes pydot_node_counts add_node elements].
  rewrite !edges_of_app, !nodes_of_app, !List.filter_app, !map_app, E, M, V.
  cbn. rewrite boxes1, boxes2, same_names. repeat split; assumption.
Qed.

Lemma run_from_same (ops : list onnx.NodeProto) (st1 st2 : Locals) (i : Z) :
  same_drawing st1 st2 ->
  same_drawing (run_from np1 ml1 st1 i ops) (run_from np2 ml2 st2 i ops).
Proof.
  unfold run_from. revert st1 st2 i.
  induction ops as [|op ops IH]; intros st1 st2 i S; cbn [enumerate_from fold_left].
  - exact S.
  - apply IH. now apply op_body_same.
Qed.

End SameDrawing.

(** X5. With the node producer of this file, the highlight list and the
    embedding of the documentation change the attributes of the operator
    nodes only: whatever the two highlight lists and the two settings of
    [embed_docstring], the two graphs have the same edges in the same
    order, nodes of the same names in the same order, and the same value
    nodes. *)
Theorem styles_change_attributes_only
    (graph : onnx.GraphProto) (name : option str) (rankdir : str)
    (e1 e2 : bool) (ml1 ml2 : list Z) :
  let g1 := GetPydotGraph graph name rankdir None e1 ml1 in
  let g2 := GetPydotGraph graph name rankdir None e2 ml2 in
  pydot.get_edges g1 = pydot.get_edges g2 /\
  map pydot.get_name (pydot.get_nodes g1) = map pydot.get_name (pydot.get_nodes g2) /\
  value_nodes g1 = value_nodes g2.
Proof.
  intros g1 g2. subst g1 g2. unfold GetPydotGraph, GetOpNodeProducer.
  rewrite !run_ops_run_from.
  destruct (run_from_same (ReallyGetOpNode e1) (ReallyGetOpNode e2) ml1 ml2)
    with (ops := onnx.node graph) (i := 0%Z)
         (st1 := initial_locals name rankdir) (st2 := initial_locals name rankdir)
    as (_ & _ & E & M & V).
  - intros i op. unfold make_op_node.
    destruct (in_list i ml1), (in_list i ml2); now rewrite !ReallyGetOpNode_name.
  - apply ReallyGetOpNode_is_op.
  - apply ReallyGetOpNode_is_op.
  - repeat split.
  - auto.
Qed.

(** ** Every node and edge comes from the model *)

Section Model.

Import pydot.

Variable np : NodeProducer.
Variable ml : list Z.
Variable ops : list onnx.NodeProto.

Lemma lookup_In {A : Type} (l : list A) (i : nat) (x : A) :
  l !! i = Some x -> In x l.
Proof.
  revert i. induction l as [|y l IH]; intros i H; [discriminate H|].
  destruct i as [|i]; simpl in H.
  - injection H as ->. now left.
  - right. eapply IH, H.
Qed.

Lemma in_nodes_of (n : Node) (l : list Element) :
  In n (nodes_of l) <-> In (ANode n) l.
Proof.
  unfold nodes_of. rewrite in_flat_map. split.
  - intros ([m|e] & H1 & H2); [|destruct H2].
    destruct H2 as [<-|[]]. exact H1.
  - intros H. exists (ANode n). split; [exact H|now left].
Qed.

Lemma in_edges_of (e : Edge) (l : list Element) :
  In e (edges_of l) <-> In (AnEdge e) l.
Proof.
  unfold edges_of. rewrite in_flat_map. split.
  - intros ([m|e'] & H1 & H2); [destruct H2|].
    destruct H2 as [<-|[]]. exact H1.
  - intros H. exists (AnEdge e). split; [exact H|now left].
Qed.

Lemma model_step (st st' : Locals) (i : nat) (op : onnx.NodeProto)
    (o : str) (c : Z) (input : bool) :
  ops !! i = Some op ->
  (if input then In o (onnx.input op) else In o (onnx.output op)) ->
  (0 <= c)%Z ->
  nodes_current st' ->
  (forall k, (0 <= count_of st' k)%Z) ->
  elements (pydot_graph st')
  = elements (pydot_graph st)
    ++ [ANode (blob_node o c);
        AnEdge (if input
                then mkEdge (blob_node o c) (make_op_node np ml (Z.of_nat i) op)
                else mkEdge (make_op_node np ml (Z.of_nat i) op) (blob_node o c))] ->
  drawn_from_model np ml ops st ->
  drawn_from_model np ml ops st'.
Proof.
  intros Hop Ho Hc Inv' Cnt' E (_ & _ & Nd & Ed).
  split; [exact Inv'|]. split; [exact Cnt'|]. rewrite E. split.
  - intros n Hn. apply in_app_or in Hn as [Hn|[Hn|[Hn|[]]]]; [now apply Nd| |discriminate Hn].
    injection Hn as <-. right. exists op, o, c.
    split; [eapply lookup_In, Hop|]. split; [|now split].
    destruct input; [now left|now right].
  - intros e He. apply in_app_or in He as [He|[He|[He|[]]]]; [now apply Ed|discriminate He|].
    injection He as <-. exists i, op, o, c.
    split; [exact Hop|]. split; [exact Hc|].
    destruct input; [left|right]; now split.
Qed.

Lemma model_inputs (i : nat) (op : onnx.NodeProto) (l : list str) (st : Locals) :
  ops !! i = Some op ->
  (forall x, In x l -> In x (onnx.input op)) ->
  drawn_from_model np ml ops st ->
  drawn_from_model np ml ops
    (fold_left (input_body (make_op_node np ml (Z.of_nat i) op)) l st).
Proof.
  intros Hop. revert st. induction l as [|x l IH]; intros st Hl D; cbn [fold_left];
    [exact D|].
  apply IH; [intros; apply Hl; now right|].
  pose proof D as (Inv & Cnt & _).
  destruct (input_body_spec (make_op_node np ml (Z.of_nat i) op) st x Inv)
    as (C & _ & E).
  apply (model_step st _ i op x (count_of st x) true); auto.
  - apply Hl. now left.
  - now apply input_body_current.
  - intros k. rewrite C. apply Cnt.
Qed.

Lemma model_outputs (i : nat) (op : onnx.NodeProto) (l : list str) (st : Locals) :
  ops !! i = Some op ->
  (forall x, In x l -> In x (onnx.output op)) ->
  drawn_from_model np ml ops st ->
  drawn_from_model np ml ops
    (fold_left (output_body (make_op_node np ml (Z.of_nat i) op)) l st).
Proof.
  intros Hop. revert st. induction l as [|x l IH]; intros st Hl D; cbn [fold_left];
    [exact D|].
  apply IH; [intros; apply Hl; now right|].
  pose proof D as (Inv & Cnt & _).
  destruct (output_body_spec (make_op_node np ml (Z.of_nat i) op) st x)
    as (C & _ & E).
  pose proof (next_count_ge st x) as G. specialize (Cnt x) as Cx.
  apply (model_step st _ i op x (next_count st x) false); auto.
  - apply Hl. now left.
  - lia.
  - now apply output_body_current.
  - intros k. rewrite C. destruct (decide (k = x)); [lia|apply Cnt].
Qed.

Lemma model_op_body (i : nat) (op : onnx.NodeProto) (st : Locals) :
  ops !! i = Some op ->
  drawn_from_model np ml ops st ->
  drawn_from_model np ml ops (op_body np ml st (Z.of_nat i, op)).
Proof.
  intros Hop (Inv & Cnt & Nd & Ed). rewrite op_body_unfold. cbv zeta.
  apply model_outputs; [exact Hop|auto|].
  apply model_inputs; [exact Hop|auto|].
  split; [exact Inv|]. split; [exact Cnt|].
  cbn [pydot_graph add_node elements]. split.
  - intros n Hn. apply in_app_or in Hn as [Hn|[Hn|[]]]; [now apply Nd|].
    injection Hn as <-. left. now exists i, op.
  - intros e He. apply in_app_or in He as [He|[He|[]]]; [now apply Ed|discriminate He].
Qed.

Lemma model_run (suffix prefix : list onnx.NodeProto) (st : Locals) :
  ops = prefix ++ suffix ->
  drawn_from_model np ml ops st ->
  drawn_from_model np ml ops (run_from np ml st (Z.of_nat (length prefix)) suffix).
Proof.
  unfold run_from. revert prefix st.
  induction suffix as [|op rest IH]; intros prefix st Hops D;
    cbn [enumerate_from fold_left]; [exact D|].
  assert (Hop : ops !! length prefix = Some op).
  { rewrite Hops. apply list_lookup_middle. reflexivity. }
  replace (Z.of_nat (length prefix) + 1)%Z
    with (Z.of_nat (length (prefix ++ [op]))) by (rewrite length_app; cbn; lia).
  apply IH.
  - now rewrite <- app_assoc.
  - now apply model_op_body.
Qed.

Lemma model_initial (name : option str) (rankdir : str) :
  drawn_from_model np ml ops (initial_locals name rankdir).
Proof.
  split; [apply initial_current|]. split; [|split].
  - intros k. unfold count_of. cbn. rewrite lookup_empty. cbn. lia.
  - intros n [].
  - intros e [].
Qed.

End Model.

(** X6. Whatever the operators, the node producer and the highlight list,
    every node of the graph that [GetPydotGraph] returns is the node that
    the producer gives for one of the operators, or the value node of a
    name that one of the operators reads or writes, at an occurrence that
    is not negative; and every edge goes from the value node of an input of
    an operator to the node of that operator, or from the node of an
    operator to the value node of one of its outputs.  No edge joins two
    operators or two values. *)
Theorem nodes_and_edges_from_model
    (graph : onnx.GraphProto) (name : option str) (rankdir : str)
    (node_producer : option NodeProducer) (embed_docstring : bool)
    (marked_list : list Z) :
  let np :=
    match node_producer with
    | None => GetOpNodeProducer embed_docstring
    | Some p => p
    end in
  let g := GetPydotGraph graph name rankdir node_producer embed_docstring marked_list in
  (forall n, In n (pydot.get_nodes g) ->
             node_of_model np marked_list (onnx.node graph) n) /\
  (forall e, In e (pydot.get_edges g) ->
             edge_of_model np marked_list (onnx.node graph) e).
Proof.
  intros np g.
  destruct (model_run np marked_list (onnx.node graph) (onnx.node graph) []
              (initial_locals name rankdir) eq_refl
              (model_initial np marked_list (onnx.node graph) name rankdir))
    as (_ & _ & Nd & Ed).
  split.
  - intros n Hn. apply Nd. now apply in_nodes_of in Hn.
  - intros e He. apply Ed. now apply in_edges_of in He.
Qed.

Lemma nodes_and_edges_from_model_witness :
  edge_of_model (GetOpNodeProducer false) [] (onnx.node three_ops_graph)
    (pydot.mkEdge (blob_node (lit "z") 0)
       (make_op_node (GetOpNodeProducer false) [] 1%Z relu_op)).
Proof.
  apply (proj2 (nodes_and_edges_from_model three_ops_graph None (lit "LR")
                  None false [])).
  vm_compute. do 3 right. left. reflexivity.
Defined.

(** ** Labels and action texts of plain texts *)

Lemma is_plain_spec (c : N) :
  is_plain c = true -> c <> BACKSLASH /\ c <> QUOTE /\ 32 <= c <= 126.
Proof.
  unfold is_plain, json.is_printable. intros H.
  apply andb_prop in H as [H Hb]. apply andb_prop in H as [H Hq].
  apply andb_prop in H as [H1 H2].
  apply N.leb_le in H1, H2. apply negb_true_iff, N.eqb_neq in Hb, Hq. auto.
Qed.

Lemma escape_plain_text (s : str) :
  Forall (fun c => is_plain c = true) s -> flat_map json.escape_char s = s.
Proof.
  induction 1 as [|c s Hc _ IH]; [reflexivity|].
  cbn [flat_map]. rewrite IH.
  apply is_plain_spec in Hc as (Hb & Hq & Hr).
  now rewrite escape_char_plain.
Qed.

Lemma str_int_is_plain (i : Z) : Forall (fun c => is_plain c = true) (str_int i).
Proof.
  assert (P : forall d, Forall (fun c => is_plain c = true) (digits d)).
  { intros d. induction d; cbn [digits]; constructor; auto. }
  unfold str_int. destruct (Z.to_int i); [apply P|].
  constructor; [reflexivity|apply P].
Qed.

(** X7. A name made of printable ASCII characters other than the double
    quote and the backslash is escaped to itself between double quotes: the
    label of its value node is the name in quotes, and the identity of its
    value node at an occurrence is the name followed by the decimal
    occurrence, in quotes. *)
Theorem plain_name_label (name : str) (count : Z) :
  Forall (fun c => is_plain c = true) name ->
  _escape_label name = [QUOTE] ++ name ++ [QUOTE] /\
  pydot.get (lit "label") (blob_node name count) = Some ([QUOTE] ++ name ++ [QUOTE]) /\
  pydot.get_name (blob_node name count) = [QUOTE] ++ name ++ str_int count ++ [QUOTE].
Proof.
  intros H.
  assert (E : _escape_label name = [QUOTE] ++ name ++ [QUOTE]).
  { unfold _escape_label, json.dumps. now rewrite escape_plain_text. }
  split; [exact E|]. split.
  - rewrite blob_node_label. now rewrite E.
  - rewrite blob_node_name. unfold _escape_label, json.dumps.
    rewrite escape_plain_text, <- app_assoc; [reflexivity|].
    apply Forall_app. split; [exact H|apply str_int_is_plain].
Qed.

Lemma plain_name_label_witness :
  pydot.get_name (blob_node (lit "conv1/weight:0") 3)
  = [QUOTE] ++ lit "conv1/weight:0" ++ lit "3" ++ [QUOTE].
Proof.
  apply (plain_name_label (lit "conv1/weight:0") 3).
  repeat constructor.
Defined.

(** X8. Two names that are Unicode text and differ have different labels:
    [_escape_label] is one-to-one on such texts. *)
Theorem escape_label_injective (a b : str) :
  Forall (fun c => is_scalar c = true) a ->
  Forall (fun c => is_scalar c = true) b ->
  _escape_label a = _escape_label b ->
  a = b.
Proof.
  intros Ha Hb H. unfold _escape_label, json.dumps in H.
  injection H as H.
  pose proof (body_dumps_body a Ha) as Ra.
  pose proof (body_dumps_body b Hb) as Rb.
  rewrite H in Ra. congruence.
Qed.

Lemma escape_label_injective_witness :
  _escape_label (lit "a" ++ [QUOTE]) <> _escape_label (lit "a" ++ [BACKSLASH; QUOTE]).
Proof.
  intros H.
  apply (escape_label_injective (lit "a" ++ [QUOTE]) (lit "a" ++ [BACKSLASH; QUOTE]))
    in H.
  - discriminate H.
  - repeat constructor.
  - repeat constructor.
Defined.

Lemma replace_absent_id (old : N) (new s : str) :
  ~ In old s -> replace old new s = s.
Proof.
  unfold replace. induction s as [|c s IH]; intros H; [reflexivity|].
  cbn [flat_map]. rewrite IH by (intros ?; apply H; now right).
  destruct (N.eqb_spec c old) as [->|_]; [|reflexivity].
  exfalso. apply H. now left.
Qed.

Lemma replace_app (old : N) (new a b : str) :
  replace old new (a ++ b) = replace old new a ++ replace old new b.
Proof. apply flat_map_app. Qed.

Lemma replace_keeps_present (c old : N) (new s : str) :
  c <> old -> In c s -> In c (replace old new s).
Proof.
  intros Hne H. unfold replace. apply in_flat_map. exists c. split; [exact H|].
  destruct (N.eqb_spec c old); [contradiction|now left].
Qed.

Lemma replace_puts_new (c old : N) (new s : str) :
  In old s -> In c new -> In c (replace old new s).
Proof.
  intros H Hc. unfold replace. apply in_flat_map. exists old. split; [exact H|].
  now rewrite N.eqb_refl.
Qed.

(** The action text is the escaped documentation, sanitized, between
    [javascript:alert('] and [')]. *)
Lemma docstring_shape (s : str) :
  _form_and_sanitize_docstring s
  = lit "javascript:alert('"
    ++ replace GT [] (replace LT [] (replace QUOTE [APOSTROPHE]
                                       (flat_map json.escape_char s)))
    ++ lit "')".
Proof.
  unfold _form_and_sanitize_docstring, _escape_label, json.dumps. cbv zeta.
  rewrite !replace_app.
  change (replace GT [] (replace LT [] (replace QUOTE [APOSTROPHE] [QUOTE])))
    with [APOSTROPHE].
  rewrite <- !app_assoc. reflexivity.
Qed.

(** X9. For a documentation made of printable ASCII characters other than
    the double quote, the backslash and the angle brackets, the action text
    is the documentation itself between [javascript:alert('] and [')]. *)
Theorem plain_docstring_action (s : str) :
  Forall (fun c => is_plain c = true /\ c <> LT /\ c <> GT) s ->
  _form_and_sanitize_docstring s = lit "javascript:alert('" ++ s ++ lit "')".
Proof.
  intros H. rewrite docstring_shape. do 2 f_equal.
  assert (Hp : Forall (fun c => is_plain c = true) s).
  { eapply List.Forall_impl; [|exact H]. now intros c (Hc & _). }
  rewrite escape_plain_text by exact Hp.
  assert (Hn : forall c, c = QUOTE \/ c = LT \/ c = GT -> ~ In c s).
  { intros c Hc Hin. rewrite List.Forall_forall in H.
    apply (H c) in Hin as (P & L & G).
    apply is_plain_spec in P as (_ & Q & _).
    destruct Hc as [-> | [-> | ->]]; congruence. }
  rewrite (replace_absent_id QUOTE) by auto.
  rewrite (replace_absent_id LT) by auto.
  now rewrite (replace_absent_id GT) by auto.
Qed.

Lemma plain_docstring_action_witness :
  _form_and_sanitize_docstring (lit "Adds two tensors.")
  = lit "javascript:alert('Adds two tensors.')".
Proof.
  apply (plain_docstring_action (lit "Adds two tensors.")).
  repeat (constructor; [repeat split; discriminate|]). constructor.
Defined.

(** X10. The sanitizing does not keep quotes out of the text of the alert:
    a single quote of the documentation reaches the action text as it is,
    and a double quote reaches it as a single quote, so the text between
    [javascript:alert('] and [')] then holds a single quote. *)
Theorem docstring_quotes_reach_action (s : str) :
  In APOSTROPHE s \/ In QUOTE s ->
  exists inner,
    _form_and_sanitize_docstring s
    = lit "javascript:alert('" ++ inner ++ lit "')" /\
    In APOSTROPHE inner.
Proof.
  intros H. eexists. split; [apply docstring_shape|].
  apply replace_keeps_present; [discriminate|].
  apply replace_keeps_present; [discriminate|].
  destruct H as [H|H].
  - apply replace_keeps_present; [discriminate|].
    apply in_flat_map. exists APOSTROPHE. split; [exact H|now left].
  - apply replace_puts_new with (old := QUOTE); [|now left].
    apply in_flat_map. exists QUOTE. split; [exact H|]. right. now left.
Qed.

Lemma docstring_quotes_reach_action_witness :
  exists inner,
    _form_and_sanitize_docstring (lit "it's") = lit "javascript:alert('" ++ inner ++ lit "')" /\
    In APOSTROPHE inner.
Proof.
  apply (docstring_quotes_reach_action (lit "it's")).
  left. right. right. left. reflexivity.
Defined.

(** ** The runs of [main] *)

Lemma main_unfold (ext : Externals) (args : Namespace) (tr : list Event) :
  main ext args tr
  = match (if (args_marked args =? 0)%Z then Some []
           else mapM (int ext) (split UNDERSCORE (args_marked_list args))) with
    | None => (inl ValueError, tr)
    | Some ml =>
        match read_file ext (args_input args) with
        | None => (inl OSError, tr ++ [ReadFile (args_input args)])
        | Some content =>
            match ParseFromString ext content with
            | None =>
                (inl DecodeError,
                 (tr ++ [ReadFile (args_input args)]) ++ [ParseModel content])
            | Some graph =>
                let g :=
                  GetPydotGraph graph (Some (onnx.graph_name graph))
                    (args_rankdir args)
                    (Some (GetOpNodeProducer (args_embed_docstring args))) false ml in
                (if write_dot ext (args_output args) g then inr tt else inl OSError,
                 (((tr ++ [ReadFile (args_input args)]) ++ [ParseModel content])
                  ++ [BuildGraph g]) ++ [WriteDot (args_output args) g])
            end
        end
    end.
Proof.
  unfold main, mbind, Run_bind, bind.
  assert (E : (if (args_marked args =? 0)%Z then mret []
               else comprehension (fun e => lift ValueError (int ext e))
                      (split UNDERSCORE (args_marked_list args))) tr
              = (match (if (args_marked args =? 0)%Z then Some []
                        else mapM (int ext) (split UNDERSCORE (args_marked_list args)))
                 with Some ml => inr ml | None => inl ValueError end, tr)).
  { destruct (args_marked args =? 0)%Z; [reflexivity|apply comprehension_lift]. }
  rewrite E. clear E.
  destruct (if (args_marked args =? 0)%Z then Some []
            else mapM (int ext) (split UNDERSCORE (args_marked_list args)));
    [|reflexivity].
  cbn. destruct (read_file ext (args_input args)) as [content|]; [|reflexivity].
  cbn. destruct (ParseFromString ext content) as [graph|]; [|reflexivity].
  cbn. now destruct (write_dot ext (args_output args) _).
Qed.

(** X11. With [--marked 0] the text of [--marked_list] is never looked at:
    [main] runs the same whatever it is, builds the graph with an empty
    highlight list, and cannot end on the exception of [int]. *)
Theorem unmarked_ignores_marked_list
    (ext : Externals) (args : Namespace) (marked_list : str) :
  args_marked args = 0%Z ->
  main ext (with_marked_list args marked_list) [] = main ext args [] /\
  fst (main ext args []) <> inl ValueError /\
  forall g, In (BuildGraph g) (snd (main ext args [])) ->
            exists graph,
              g = GetPydotGraph graph (Some (onnx.graph_name graph)) (args_rankdir args)
                    (Some (GetOpNodeProducer (args_embed_docstring args))) false [].
Proof.
  intros H. rewrite !main_unfold. cbn [with_marked_list args_marked args_input
    args_output args_rankdir args_embed_docstring args_marked_list].
  rewrite H. cbn [Z.eqb]. split; [reflexivity|].
  destruct (read_file ext (args_input args)) as [content|].
  - destruct (ParseFromString ext content) as [graph|].
    + cbv zeta. split.
      * now destruct (write_dot ext (args_output args) _).
      * intros g Hg. cbn in Hg.
        destruct Hg as [Hg|[Hg|[Hg|[Hg|[]]]]]; try discriminate Hg.
        injection Hg as <-. now exists graph.
    + split; [discriminate|].
      intros g Hg. cbn in Hg. destruct Hg as [Hg|[Hg|[]]]; discriminate Hg.
  - split; [discriminate|].
    intros g Hg. cbn in Hg. destruct Hg as [Hg|[]]; discriminate Hg.
Qed.

Lemma unmarked_ignores_marked_list_witness :
  main sample_ext
    (with_marked_list
       {| args_input := lit "model.pb"; args_output := lit "model.dot";
          args_rankdir := lit "TB"; args_embed_docstring := true;
          args_marked := 0; args_marked_list := [] |} (lit "not_a_number")) []
  = main sample_ext
      {| args_input := lit "model.pb"; args_output := lit "model.dot";
         args_rankdir := lit "TB"; args_embed_docstring := true;
         args_marked := 0; args_marked_list := [] |} [].
Proof.
  apply (unmarked_ignores_marked_list sample_ext
           {| args_input := lit "model.pb"; args_output := lit "model.dot";
              args_rankdir := lit "TB"; args_embed_docstring := true;
              args_marked := 0; args_marked_list := [] |} (lit "not_a_number")).
  reflexivity.
Defined.

(** X12. [main] stops at the first step that fails and writes nothing
    then.  Once the highlight list is read: when the input cannot be read,
    it ends on the error of the reading and has done nothing else; when the
    content is no model, it ends on the error of the parsing, after the
    reading only; otherwise it builds the graph of the model, under the
    name of the model graph, with the given [rankdir], the producer for the
    given [embed_docstring] and the highlight list, and writes this graph,
    once, to the output. *)
Theorem main_stops_at_first_failure
    (ext : Externals) (args : Namespace) (ml : list Z) :
  (if (args_marked args =? 0)%Z then Some []
   else mapM (int ext) (split UNDERSCORE (args_marked_list args))) = Some ml ->
  (read_file ext (args_input args) = None ->
   main ext args [] = (inl OSError, [ReadFile (args_input args)])) /\
  (forall content,
      read_file ext (args_input args) = Some content ->
      ParseFromString ext content = None ->
      main ext args []
      = (inl DecodeError, [ReadFile (args_input args); ParseModel content])) /\
  (forall content graph,
      read_file ext (args_input args) = Some content ->
      ParseFromString ext content = Some graph ->
      let g :=
        GetPydotGraph graph (Some (onnx.graph_name graph)) (args_rankdir args)
          (Some (GetOpNodeProducer (args_embed_docstring args))) false ml in
      main ext args []
      = (if write_dot ext (args_output args) g then inr tt else inl OSError,
         [ReadFile (args_input args); ParseModel content;
          BuildGraph g; WriteDot (args_output args) g])).
Proof.
  intros Hml. rewrite main_unfold, Hml. split; [|split].
  - now intros ->.
  - now intros content -> ->.
  - now intros content graph -> ->.
Qed.

Lemma main_stops_at_first_failure_witness :
  main {| int := int_ascii; read_file := fun _ => Some [];
          ParseFromString := fun _ => None; write_dot := fun _ _ => true |}
       (sample_args (lit "1")) []
  = (inl DecodeError, [ReadFile (lit "model.pb"); ParseModel []]).
Proof.
  apply (proj1 (proj2 (main_stops_at_first_failure
                         {| int := int_ascii; read_file := fun _ => Some [];
                            ParseFromString := fun _ => None;
                            write_dot := fun _ _ => true |}
                         (sample_args (lit "1")) [1%Z] eq_refl)) []);
    reflexivity.
Defined.

(** *** A highlight list written with underscores *)

Lemma split_free (sep : N) (p : str) : ~ In sep p -> split sep p = [p].
Proof.
  induction p as [|c p IH]; intros H; [reflexivity|].
  cbn [split]. destruct (N.eqb_spec c sep) as [->|_].
  - exfalso. apply H. now left.
  - rewrite IH; [reflexivity|]. intros ?. apply H. now right.
Qed.

Lemma split_piece (sep : N) (p rest : str) :
  ~ In sep p -> split sep (p ++ sep :: rest) = p :: split sep rest.
Proof.
  induction p as [|c p IH]; intros H; cbn [app split].
  - now rewrite N.eqb_refl.
  - destruct (N.eqb_spec c sep) as [->|_].
    + exfalso. apply H. now left.
    + rewrite IH; [reflexivity|]. intros ?. apply H. now right.
Qed.

Lemma split_join (sep : N) (l : list str) :
  l <> [] ->
  Forall (fun p => ~ In sep p) l ->
  split sep (join sep l) = l.
Proof.
  intros Hne F. induction F as [|p l Hp F IH]; [congruence|].
  destruct l as [|q l].
  - cbn [join]. now apply split_free.
  - change (join sep (p :: q :: l)) with (p ++ sep :: join sep (q :: l)).
    rewrite split_piece by exact Hp. f_equal. apply IH. discriminate.
Qed.

Lemma str_int_no_underscore (i : Z) : ~ In UNDERSCORE (str_int i).
Proof.
  assert (P : forall d, ~ In UNDERSCORE (digits d)).
  { intros d H. pose proof (digits_are_digits d) as F.
    rewrite List.Forall_forall in F. apply F in H. unfold UNDERSCORE in H. lia. }
  unfold str_int. destruct (Z.to_int i) as [d|d]; [apply P|].
  intros [H|H]; [discriminate H|now apply P in H].
Qed.

Lemma mapM_map_inverse {A B : Type} (f : A -> option B) (g : B -> A) (l : list B) :
  Forall (fun z => f (g z) = Some z) l -> mapM f (map g l) = Some l.
Proof.
  induction 1 as [|z l Hz _ IH]; [reflexivity|].
  cbn [map mapM]. rewrite Hz. cbn. rewrite IH. reflexivity.
Qed.

(** X13. The highlight list goes through [--marked_list] and back: with
    the feature on and [--marked_list] the decimal numerals of a list of
    integers (at least one) joined by underscores, where [int] reads back
    each numeral, [main] builds the graph of the model with exactly this
    list as the highlight list. *)
Theorem marked_list_round_trip
    (ext : Externals) (args : Namespace) (l : list Z)
    (content : list Byte.byte) (graph : onnx.GraphProto) :
  l <> [] ->
  args_marked args <> 0%Z ->
  args_marked_list args = join UNDERSCORE (map str_int l) ->
  Forall (fun z => int ext (str_int z) = Some z) l ->
  read_file ext (args_input args) = Some content ->
  ParseFromString ext content = Some graph ->
  In (BuildGraph
        (GetPydotGraph graph (Some (onnx.graph_name graph)) (args_rankdir args)
           (Some (GetOpNodeProducer (args_embed_docstring args))) false l))
     (snd (main ext args [])).
Proof.
  intros Hne Hm Hl Hint Hread Hparse.
  rewrite main_unfold, Hl, Hread, Hparse.
  destruct (Z.eqb_spec (args_marked args) 0); [contradiction|].
  rewrite split_join.
  - rewrite (mapM_map_inverse _ _ _ Hint). cbn. right. right. now left.
  - destruct l; [congruence|discriminate].
  - apply List.Forall_forall. intros p Hp. apply in_map_iff in Hp as (z & <- & _).
    apply str_int_no_underscore.
Qed.

Lemma marked_list_round_trip_witness :
  In (BuildGraph
        (GetPydotGraph three_ops_graph (Some (lit "g")) (lit "LR")
           (Some (GetOpNodeProducer false)) false [2; 3; 4; -1; 10]%Z))
     (snd (main sample_ext (sample_args (lit "2_3_4_-1_10")) [])).
Proof.
  apply (marked_list_round_trip sample_ext (sample_args (lit "2_3_4_-1_10"))
           [2; 3; 4; -1; 10]%Z [] three_ops_graph).
  - discriminate.
  - discriminate.
  - reflexivity.
  - repeat constructor.
  - reflexivity.
  - reflexivity.
Defined.

(** ** Models in single-assignment form *)

Section SingleAssignment.

Import pydot.

Variable np : NodeProducer.
Variable ml : list Z.

Lemma all_first_more (seen seen' : list str) (st : Locals) :
  (forall k, In k seen -> In k seen') ->
  all_first np ml seen st -> all_first np ml seen' st.
Proof.
  intros Hs (Inv & C & K & Nd). repeat split; auto.
Qed.

Lemma all_first_input (op_node : Node) (seen : list str) (st : Locals) (x : str) :
  all_first np ml seen st ->
  all_first np ml (x :: seen) (input_body op_node st x).
Proof.
  intros (Inv & C & K & Nd).
  destruct (input_body_spec op_node st x Inv) as (Cs & N & E).
  split; [now apply input_body_current|]. split; [|split].
  - intros k. now rewrite Cs.
  - intros k. rewrite N. destruct (decide (x = k)) as [->|Hne]; [now left|].
    rewrite lookup_insert_ne by exact Hne. right. now apply K.
  - intros n. rewrite E, C. intros Hn.
    apply in_app_or in Hn as [Hn|[Hn|[Hn|[]]]]; [now apply Nd| |discriminate Hn].
    injection Hn as <-. right. now exists x.
Qed.

Lemma all_first_output (op_node : Node) (seen : list str) (st : Locals) (x : str) :
  ~ In x seen ->
  all_first np ml seen st ->
  all_first np ml (x :: seen) (output_body op_node st x).
Proof.
  intros Hx (Inv & C & K & Nd).
  destruct (output_body_spec op_node st x) as (Cs & N & E).
  assert (Hc : next_count st x = 0%Z).
  { unfold next_count. destruct (pydot_nodes st !! x) as [m|] eqn:Em; [|apply C].
    exfalso. apply Hx, K. eauto. }
  split; [now apply output_body_current|]. split; [|split].
  - intros k. rewrite Cs. destruct (decide (k = x)); [exact Hc|apply C].
  - intros k. rewrite N. destruct (decide (x = k)) as [->|Hne]; [now left|].
    rewrite lookup_insert_ne by exact Hne. right. now apply K.
  - intros n. rewrite E, Hc. intros Hn.
    apply in_app_or in Hn as [Hn|[Hn|[Hn|[]]]]; [now apply Nd| |discriminate Hn].
    injection Hn as <-. right. now exists x.
Qed.

Lemma all_first_inputs (op_node : Node) (l seen seen' : list str) (st : Locals) :
  (forall k, In k (l ++ seen) -> In k seen') ->
  all_first np ml seen st ->
  all_first np ml seen' (fold_left (input_body op_node) l st).
Proof.
  revert seen st. induction l as [|x l IH]; intros seen st Hs A; cbn [fold_left].
  - now apply (all_first_more seen).
  - apply (IH (x :: seen)); [|now apply all_first_input].
    intros k Hk. apply Hs. apply in_app_or in Hk as [Hk|[<-|Hk]].
    + right. apply in_or_app. now left.
    + now left.
    + right. apply in_or_app. now right.
Qed.

Lemma all_first_outputs (op_node : Node) (l seen seen' : list str) (st : Locals) :
  NoDup l ->
  (forall x, In x l -> ~ In x seen) ->
  (forall k, In k (l ++ seen) -> In k seen') ->
  all_first np ml seen st ->
  all_first np ml seen' (fold_left (output_body op_node) l st).
Proof.
  revert seen st. induction l as [|x l IH]; intros seen st Hd Hf Hs A; cbn [fold_left].
  - now apply (all_first_more seen).
  - apply NoDup_cons in Hd as [Hx Hd].
    apply (IH (x :: seen)); [exact Hd| | |].
    + intros y Hy [<-|Hin]; [now apply Hx, list_elem_of_In|].
      apply (Hf y); [now right|exact Hin].
    + intros k Hk. apply Hs. apply in_app_or in Hk as [Hk|[<-|Hk]].
      * right. apply in_or_app. now left.
      * now left.
      * right. apply in_or_app. now right.
    + apply all_first_output; [|exact A]. apply Hf. now left.
Qed.

Lemma all_first_op_body (seen : list str) (st : Locals) (i : Z) (op : onnx.NodeProto) :
  NoDup (onnx.output op) ->
  (forall o, In o (onnx.output op) -> ~ In o seen /\ ~ In o (onnx.input op)) ->
  all_first np ml seen st ->
  all_first np ml (onnx.output op ++ onnx.input op ++ seen) (op_body np ml st (i, op)).
Proof.
  intros Hd Hf (Inv & C & K & Nd). rewrite op_body_unfold. cbv zeta.
  apply (all_first_outputs _ _ (onnx.input op ++ seen)); [exact Hd| |auto|].
  { intros x Hx Hin. destruct (Hf x Hx) as [H1 H2].
    apply in_app_or in Hin as [Hin|Hin]; contradiction. }
  apply (all_first_inputs _ _ seen); [auto|].
  repeat split; auto.
  cbn [pydot_graph add_node elements]. intros n Hn.
  apply in_app_or in Hn as [Hn|[Hn|[]]]; [now apply Nd|].
  injection Hn as <-. left. now exists i, op.
Qed.

Lemma all_first_run (ops : list onnx.NodeProto) (seen : list str) (st : Locals) (i : Z) :
  single_assignment seen ops ->
  all_first np ml seen st ->
  exists seen', all_first np ml seen' (run_from np ml st i ops).
Proof.
  unfold run_from. revert seen st i.
  induction ops as [|op ops IH]; intros seen st i S A; cbn [enumerate_from fold_left].
  - now exists seen.
  - destruct S as (Hd & Hf & S).
    eapply IH; [exact S|]. now apply all_first_op_body.
Qed.

End SingleAssignment.

(** X14. For a model in single-assignment form (no operator writes a name
    twice, a name it reads, or a name read or written before it), every
    value node of the graph is at the occurrence [0]: each node that
    [GetPydotGraph] adds is the node of an operator or the value node whose
    identity is the escaped name followed by [0], so a name has one
    identity in the whole graph. *)
Theorem single_assignment_first_occurrences
    (graph : onnx.GraphProto) (name : option str) (rankdir : str)
    (node_producer : option NodeProducer) (embed_docstring : bool)
    (marked_list : list Z) :
  single_assignment [] (onnx.node graph) ->
  let np :=
    match node_producer with
    | None => GetOpNodeProducer embed_docstring
    | Some p => p
    end in
  let g := GetPydotGraph graph name rankdir node_producer embed_docstring marked_list in
  forall n, In n (pydot.get_nodes g) ->
            (exists i op, n = make_op_node np marked_list i op) \/
            (exists o, n = blob_node o 0 /\
                       pydot.get_name n = _escape_label (o ++ lit "0")).
Proof.
  intros S np g n Hn.
  destruct (all_first_run np marked_list (onnx.node graph) []
              (initial_locals name rankdir) 0%Z S) as (seen & _ & _ & _ & Nd).
  { split; [apply initial_current|]. split; [|split].
    - intros k. unfold count_of. cbn. now rewrite lookup_empty.
    - intros k [m Hm]. cbn in Hm. rewrite lookup_empty in Hm. discriminate Hm.
    - intros m []. }
  apply in_nodes_of in Hn. destruct (Nd n Hn) as [H|[o ->]]; [now left|].
  right. exists o. split; reflexivity.
Qed.

Lemma single_assignment_first_occurrences_witness :
  (exists i op,
      blob_node (lit "z1") 0 = make_op_node (GetOpNodeProducer false) [] i op) \/
  (exists o,
      blob_node (lit "z1") 0 = blob_node o 0 /\
      pydot.get_name (blob_node (lit "z1") 0) = _escape_label (o ++ lit "0")).
Proof.
  apply (single_assignment_first_occurrences
           {| onnx.node := [add_op []; neg_op]; onnx.graph_name := [] |}
           None (lit "LR") None false []).
  - cbn [single_assignment onnx.node].
    split; [repeat constructor; intros H; inversion H|].
    split.
    { intros o [<-|[]]. split; [intros []|].
      intros [H|[H|[]]]; discriminate H. }
    split; [repeat constructor; intros H; inversion H|].
    split; [|exact I].
    intros o [<-|[]]. split; intros H; cbn in H;
      repeat (destruct H as [H|H]; [discriminate H|]); exact H.
  - vm_compute. do 5 right. left. reflexivity.
Defined.

(** ** The attributes of an operator node *)

Lemma lookup_set_attr_other (key other value : str) (attrs : list (str * str)) :
  other <> key ->
  pydot.lookup_attr other (pydot.set_attr key value attrs) = pydot.lookup_attr other attrs.
Proof.
  intros Hne. induction attrs as [|[k v] r IH]; cbn [pydot.set_attr pydot.lookup_attr].
  - destruct (decide (key = other)); congruence.
  - destruct (decide (k = key)) as [E|E]; cbn [pydot.lookup_attr].
    + destruct (decide (k = other)); congruence.
    + destruct (decide (k = other)); [reflexivity|exact IH].
Qed.

(** X15. The node that [ReallyGetOpNode] makes without embedding has the
    keyword arguments as attributes.  With the documentation embedded it
    has the action text as [URL] attribute, also when the keyword
    arguments give a [URL], every other attribute is the one of the
    keyword arguments, and its name is the same as without embedding. *)
Theorem op_node_attributes
    (op : onnx.NodeProto) (op_id : Z) (kwargs : list (str * str)) :
  pydot.get_attributes (ReallyGetOpNode false op op_id kwargs) = kwargs /\
  pydot.get (lit "URL") (ReallyGetOpNode true op op_id kwargs)
  = Some (_form_and_sanitize_docstring (onnx.doc_string op)) /\
  (forall key, key <> lit "URL" ->
               pydot.get key (ReallyGetOpNode true op op_id kwargs)
               = pydot.lookup_attr key kwargs) /\
  pydot.get_name (ReallyGetOpNode true op op_id kwargs)
  = pydot.get_name (ReallyGetOpNode false op op_id kwargs).
Proof.
  split; [reflexivity|]. split; [|split].
  - unfold ReallyGetOpNode, pydot.get, pydot.set_URL. cbn [pydot.get_attributes].
    apply lookup_set_attr.
  - intros key Hk. unfold ReallyGetOpNode, pydot.get, pydot.set_URL.
    cbn [pydot.get_attributes pydot.mkNode].
    now apply lookup_set_attr_other.
  - now rewrite !ReallyGetOpNode_name.
Qed.

Lemma op_node_attributes_witness :
  pydot.get (lit "color") (ReallyGetOpNode true relu_op 1%Z OP_STYLE_1)
  = Some (lit "#930e9d").
Proof.
  rewrite (proj1 (proj2 (proj2 (op_node_attributes relu_op 1%Z OP_STYLE_1)))
             (lit "color")).
  - reflexivity.
  - discriminate.
Defined.

(** ** More operators *)

(** X16. Operators added at the end of a model take nothing from the
    graph and change nothing in it: every node and every edge of the graph
    of the shorter model is a node, an edge of the graph of the longer one,
    which has, beyond them, one node for each added operator and one node
    and one edge for each input name and each output name of the added
    operators. *)
Theorem more_operators_extend_the_graph
    (graph1 graph2 : onnx.GraphProto) (rest : list onnx.NodeProto)
    (name : option str) (rankdir : str)
    (node_producer : option NodeProducer) (embed_docstring : bool)
    (marked_list : list Z) :
  onnx.node graph2 = onnx.node graph1 ++ rest ->
  let g1 := GetPydotGraph graph1 name rankdir node_producer embed_docstring marked_list in
  let g2 := GetPydotGraph graph2 name rankdir node_producer embed_docstring marked_list in
  (forall n, In n (pydot.get_nodes g1) -> In n (pydot.get_nodes g2)) /\
  (forall e, In e (pydot.get_edges g1) -> In e (pydot.get_edges g2)) /\
  length (pydot.get_nodes g2)
  = (length (pydot.get_nodes g1)
     + length rest + total_inputs rest + total_outputs rest)%nat /\
  length (pydot.get_edges g2)
  = (length (pydot.get_edges g1) + total_inputs rest + total_outputs rest)%nat.
Proof.
  intros H g1 g2. subst g1 g2. unfold GetPydotGraph.
  set (np := match node_producer with
             | None => GetOpNodeProducer embed_docstring
             | Some p => p
             end).
  rewrite H, !run_ops_run_from, run_from_app.
  set (s1 := run_from np marked_list (initial_locals name rankdir) 0%Z
               (onnx.node graph1)).
  set (i := (0 + Z.of_nat (length (onnx.node graph1)))%Z).
  destruct (run_from_loop np marked_list (onnx.node graph1)
              (initial_locals name rankdir) 0%Z (initial_current name rankdir))
    as [I1 _].
  fold s1 in I1.
  destruct (run_from_loop np marked_list rest s1 i I1) as [_ ([more Em] & _)].
  destruct (run_from_sizes np marked_list rest s1 i) as [Hn He].
  split; [|split; [|split]].
  - intros n Hin. unfold pydot.get_nodes in *.
    rewrite Em, nodes_of_app. apply in_or_app. now left.
  - intros e Hin. unfold pydot.get_edges in *.
    rewrite Em, edges_of_app. apply in_or_app. now left.
  - exact Hn.
  - exact He.
Qed.

Lemma more_operators_extend_the_graph_witness :
  In (blob_node (lit "z") 0)
     (pydot.get_nodes
        (GetPydotGraph {| onnx.node := [add_op []; relu_op]; onnx.graph_name := [] |}
           None (lit "LR") None false [])).
Proof.
  apply (proj1 (more_operators_extend_the_graph
                  {| onnx.node := [add_op []]; onnx.graph_name := [] |}
                  {| onnx.node := [add_op []; relu_op]; onnx.graph_name := [] |}
                  [relu_op] None (lit "LR") None false [] eq_refl)).
  vm_compute. do 3 right. left. reflexivity.
Defined.
